(** * Student grouping: a shallow embedding of [tut01.py]

    The development follows [StudentDataAnalyser]: the loader that builds
    the per-branch index, the round-robin ("branch-wise") allocator, the
    size-balanced ("uniform") allocator and the statistics table.

    Python values are modelled as follows.
    - a cell of the uploaded table is a [string], so that
      [df['Roll'].str[4:6]] is defined on every row; once the columns are
      checked nothing in [load_data] raises, and its [except] branch is
      reached from the file reader only;
    - a row (what [student.to_dict()] yields) is an association list from
      column name to cell, in column order;
    - [self.branches] is a Python [dict]: an association list in insertion
      order, where assigning to an existing key keeps the key's position;
    - an operation that raises ([IndexError], [KeyError],
      [ZeroDivisionError]) returns [None];
    - [num_groups] is a natural number.  [math.ceil(total / num_groups)] is
      computed by Python on floats; the quotient of two integers below 2^53
      is correctly rounded and never rounds a non-integer to an integer, so
      it is modelled by integer ceiling division. *)

From Stdlib Require Import Bool Arith PeanoNat ZArith Lia.
From Stdlib Require Import Ascii String DecimalString DecimalNat.
From Stdlib Require Import Permutation Sorted OrderedTypeEx.
From Stdlib Require Import List.
Import ListNotations.

Local Open Scope string_scope.
Local Open Scope nat_scope.
Local Open Scope list_scope.

(** ** Python builtins *)

Module Py.

Section Builtins.
Context {A : Type}.

(** [sorted(l)] is stable; [le x y] says that [x] may stay in front of
    [y].  An element is placed in front of the first element it may
    precede, so that among equals the earlier one stays first. *)
Fixpoint insert (le : A -> A -> bool) (x : A) (l : list A) : list A :=
  match l with
  | [] => [x]
  | y :: l' => if le x y then x :: l else y :: insert le x l'
  end.

Definition sorted (le : A -> A -> bool) (l : list A) : list A :=
  fold_right (insert le) [] l.

(** [l[i].append(x)] on a list of lists; [None] is [IndexError]. *)
Fixpoint append_at (i : nat) (x : A) (ls : list (list A)) {struct ls}
  : option (list (list A)) :=
  match ls, i with
  | [], _ => None
  | l :: ls', 0 => Some ((l ++ [x]) :: ls')
  | l :: ls', S i' =>
      match append_at i' x ls' with
      | Some r => Some (l :: r)
      | None => None
      end
  end.

(** A [for] loop whose body may raise. *)
Fixpoint for_each {S : Type} (body : S -> A -> option S) (l : list A) (s : S)
  : option S :=
  match l with
  | [] => Some s
  | x :: l' =>
      match body s x with
      | Some s' => for_each body l' s'
      | None => None
      end
  end.

(** [enumerate(l)] *)
Definition enumerate (l : list A) : list (nat * A) :=
  combine (seq 0 (List.length l)) l.
End Builtins.

(** A [dict] with string keys, in insertion order. *)
Definition dict (V : Type) : Type := list (string * V).

Section Dict.
Context {V : Type}.

Fixpoint dict_get (k : string) (d : dict V) : option V :=
  match d with
  | [] => None
  | (k', v) :: d' => if String.eqb k' k then Some v else dict_get k d'
  end.

(** [d[k] = v]: an existing key keeps its place, a new one goes last. *)
Fixpoint dict_set (k : string) (v : V) (d : dict V) : dict V :=
  match d with
  | [] => [(k, v)]
  | (k', v') :: d' =>
      if String.eqb k' k then (k', v) :: d' else (k', v') :: dict_set k v d'
  end.

Definition keys (d : dict V) : list string := map fst d.
Definition values (d : dict V) : list V := map snd d.
Definition items (d : dict V) : list (string * V) := d.
End Dict.

(** [math.ceil(a / b)] for [b > 0]. *)
Definition ceil_div (a b : nat) : nat := (a + b - 1) / b.

(** [str(n)] *)
Definition str_of_nat (n : nat) : string :=
  NilEmpty.string_of_uint (Nat.to_uint n).

End Py.

(** ** The part of pandas the program uses *)

Definition Row : Type := list (string * string).

Record DataFrame : Type := mkDataFrame {
  columns : list string;
  rows : list Row
}.

(** [row[c]]; the frames the loader accepts have every required column. *)
Definition cell (c : string) (r : Row) : string :=
  match Py.dict_get c r with
  | Some v => v
  | None => ""
  end.

Definition Roll (r : Row) : string := cell "Roll" r.
Definition Name (r : Row) : string := cell "Name" r.
Definition Email (r : Row) : string := cell "Email" r.
Definition Branch (r : Row) : string := cell "Branch" r.

(** [s[4:6]] *)
Definition slice_4_6 (s : string) : string := String.substring 4 2 s.

(** [df['Branch'] = df['Roll'].str[4:6]]: the column is added (or
    overwritten) in every row. *)
Definition with_branch (r : Row) : Row :=
  Py.dict_set "Branch" (slice_4_6 (Roll r)) r.

Definition add_branch_column (df : DataFrame) : DataFrame :=
  {| columns := if existsb (String.eqb "Branch") (columns df)
                then columns df else columns df ++ ["Branch"];
     rows := map with_branch (rows df) |}.

(** [Series.unique()]: the distinct values in order of first appearance. *)
Fixpoint unique (l : list string) : list string :=
  match l with
  | [] => []
  | x :: l' => x :: filter (fun y => negb (String.eqb y x)) (unique l')
  end.

(** [df[df['Branch'] == b]] *)
Definition select_branch (b : string) (rs : list Row) : list Row :=
  filter (fun r => String.eqb (Branch r) b) rs.

Definition name_le (r1 r2 : Row) : Prop := String.leb (Name r1) (Name r2) = true.

(** [sort_values('Name')] is called with pandas' default algorithm
    ([kind='quicksort']).  pandas specifies its result as the same rows in
    ascending key order and names only [kind='mergesort'] and
    [kind='stable'] as stable, so the loader is parameterised by any
    function with that contract. *)
Class SortValues : Type := {
  sort_values : list Row -> list Row;
  sort_values_perm : forall rs, Permutation rs (sort_values rs);
  sort_values_sorted : forall rs, StronglySorted name_le (sort_values rs)
}.

(** ** StudentDataAnalyser *)

Record Analyser : Type := mkAnalyser {
  students_df : option DataFrame;
  branches : Py.dict (list Row)
}.

(** [__init__] *)
Definition init : Analyser := {| students_df := None; branches := [] |}.

Definition required_cols : list string := ["Roll"; "Name"; "Email"].

Definition has_required_cols (df : DataFrame) : bool :=
  forallb (fun col => existsb (String.eqb col) (columns df)) required_cols.

Section Load.
Context {SV : SortValues}.

(** The loop of [load_data] over [df['Branch'].unique()]. *)
Definition group_by_branch (rs : list Row) (d : Py.dict (list Row))
  : Py.dict (list Row) :=
  fold_left
    (fun d branch => Py.dict_set branch (sort_values (select_branch branch rs)) d)
    (unique (map Branch rs)) d.

(** [load_data]; [uploaded] is what [pd.read_csv] / [pd.read_excel] made
    of the file, [None] when the reader raised.  The result is the new
    state of the analyser and the returned flag.
<<
      self.students_df = pd.read_csv(uploaded_file)
      if not all(col in self.students_df.columns for col in required_cols):
          return False
      self.students_df['Branch'] = self.students_df['Roll'].str[4:6]
      for branch in self.students_df['Branch'].unique():
          branch_students = self.students_df[self.students_df['Branch'] == branch].copy()
          self.branches[branch] = branch_students.sort_values('Name')
      return True
>> *)
Definition load_data (uploaded : option DataFrame) (self : Analyser)
  : Analyser * bool :=
  match uploaded with
  | None => (self, false)
  | Some df =>
      let self1 := {| students_df := Some df; branches := branches self |} in
      if negb (has_required_cols df) then (self1, false)
      else
        let df' := add_branch_column df in
        ({| students_df := Some df';
            branches := group_by_branch (rows df') (branches self) |}, true)
  end.
End Load.

(** *** Round-robin allocator
<<
      groups = [[] for _ in range(num_groups)]
      branch_names = sorted(self.branches.keys())
      current_group = 0
      for branch in branch_names:
          for _, student in self.branches[branch].iterrows():
              groups[current_group].append(student.to_dict())
              current_group = (current_group + 1) % num_groups
>> *)

Definition Groups : Type := list (list Row).

(** [[[] for _ in range(num_groups)]] *)
Definition empty_groups (num_groups : nat) : Groups := repeat [] num_groups.

(** The body of the inner loop: [IndexError] from the append, then
    [ZeroDivisionError] from the modulo. *)
Definition rr_student (num_groups : nat) (st : Groups * nat) (student : Row)
  : option (Groups * nat) :=
  let '(groups, current_group) := st in
  match Py.append_at current_group student groups with
  | None => None
  | Some groups' =>
      if num_groups =? 0 then None
      else Some (groups', (current_group + 1) mod num_groups)
  end.

(** The body of the outer loop; [None] from the lookup is [KeyError]. *)
Definition rr_branch (num_groups : nat) (self : Analyser) (st : Groups * nat)
  (branch : string) : option (Groups * nat) :=
  match Py.dict_get branch (branches self) with
  | None => None
  | Some students => Py.for_each (rr_student num_groups) students st
  end.

Definition branchwise_groups (num_groups : nat) (self : Analyser)
  : option Groups :=
  let groups := empty_groups num_groups in
  let branch_names := Py.sorted String.leb (Py.keys (branches self)) in
  match Py.for_each (rr_branch num_groups self) branch_names (groups, 0) with
  | Some (groups', _) => Some groups'
  | None => None
  end.

(** *** Size-balanced allocator
<<
      groups = [[] for _ in range(num_groups)]
      sorted_branches = sorted(self.branches.items(), key=lambda x: len(x[1]), reverse=True)
      total_students = sum(len(students) for students in self.branches.values())
      target_size = math.ceil(total_students / num_groups)
      current_group = 0
      for branch_name, students in sorted_branches:
          for _, student in students.iterrows():
              if len(groups[current_group]) >= target_size and current_group < num_groups - 1:
                  current_group += 1
              groups[current_group].append(student.to_dict())
>> *)

(** The order of [sorted(..., key=len, reverse=True)]: a longer branch
    goes first; [reverse=True] keeps equal keys in their original order. *)

Definition by_size_desc (x y : string * list Row) : bool :=
  List.length (snd y) <=? List.length (snd x).

Definition sorted_branches (self : Analyser) : list (string * list Row) :=
  Py.sorted by_size_desc (Py.items (branches self)).

Definition total_students (self : Analyser) : nat :=
  list_sum (map (@List.length Row) (Py.values (branches self))).

(** [None] is the [ZeroDivisionError] of [total_students / 0]. *)
Definition target_size (num_groups : nat) (self : Analyser) : option nat :=
  if num_groups =? 0 then None
  else Some (Py.ceil_div (total_students self) num_groups).

(** The body of the inner loop.  [num_groups - 1] is truncated at 0 here
    and is -1 in Python when [num_groups] is 0; the test is false both
    ways, and [target_size] has raised before. *)
Definition uniform_student (num_groups target : nat) (st : Groups * nat)
  (student : Row) : option (Groups * nat) :=
  let '(groups, current_group) := st in
  match nth_error groups current_group with
  | None => None
  | Some g =>
      let current_group' :=
        if (target <=? List.length g) && (current_group <? num_groups - 1)
        then current_group + 1 else current_group in
      match Py.append_at current_group' student groups with
      | Some groups' => Some (groups', current_group')
      | None => None
      end
  end.

Definition uniform_branch (num_groups target : nat) (st : Groups * nat)
  (item : string * list Row) : option (Groups * nat) :=
  Py.for_each (uniform_student num_groups target) (snd item) st.

(** The allocation loop, with the final cursor. *)
Definition uniform_run (num_groups : nat) (self : Analyser)
  : option (Groups * nat) :=
  let groups := empty_groups num_groups in
  match target_size num_groups self with
  | None => None
  | Some target =>
      Py.for_each (uniform_branch num_groups target) (sorted_branches self)
        (groups, 0)
  end.

Definition uniform_groups (num_groups : nat) (self : Analyser)
  : option Groups :=
  match uniform_run num_groups self with
  | Some (groups', _) => Some groups'
  | None => None
  end.

(** *** Statistics
<<
      branch_names = sorted(self.branches.keys())
      header = ['Group'] + branch_names + ['Total']
      for i, group in enumerate(groups):
          if group:
              row = [f"G{i+1}"]
              total = 0
              for branch in branch_names:
                  count = len(group_df[group_df['Branch'] == branch])
                  row.append(count)
                  total += count
              row.append(total)
              stats_data.append(row)
>>
    A row is kept as its label, its counts and its total. *)

Record StatsRow : Type := mkStatsRow {
  row_label : string;
  row_counts : list nat;
  row_total : nat
}.

Record StatsTable : Type := mkStatsTable {
  header : list string;
  stats_data : list StatsRow
}.

(** [len(group_df[group_df['Branch'] == branch])] *)
Definition branch_count (branch : string) (group : list Row) : nat :=
  List.length (select_branch branch group).

Definition stats_row (branch_names : list string) (i : nat) (group : list Row)
  : StatsRow :=
  let '(counts, total) :=
    fold_left
      (fun '(row, total) branch =>
         let count := branch_count branch group in
         (row ++ [count], total + count))
      branch_names ([], 0) in
  {| row_label := String.append "G" (Py.str_of_nat (i + 1));
     row_counts := counts;
     row_total := total |}.

Definition save_statistics (groups : Groups) (self : Analyser) : StatsTable :=
  let branch_names := Py.sorted String.leb (Py.keys (branches self)) in
  {| header := ["Group"] ++ branch_names ++ ["Total"];
     stats_data :=
       flat_map
         (fun '(i, group) =>
            match group with
            | [] => []
            | _ :: _ => [stats_row branch_names i group]
            end)
         (Py.enumerate groups) |}.

(** The two public operations: the groups they return and the statistics
    they write. *)
Definition create_and_save_branchwise_groups (num_groups : nat)
  (self : Analyser) : option (Groups * StatsTable) :=
  match branchwise_groups num_groups self with
  | Some groups => Some (groups, save_statistics groups self)
  | None => None
  end.

Definition create_and_save_uniform_groups (num_groups : nat)
  (self : Analyser) : option (Groups * StatsTable) :=
  match uniform_groups num_groups self with
  | Some groups => Some (groups, save_statistics groups self)
  | None => None
  end.

(** *** Files written

    [frame[['Name', 'Roll', 'Email']].to_csv(filename, index=False)]: a
    file is kept as its name, its header line and its data lines.  The
    frames written come from the index, whose rows have the three columns. *)

Record CsvFile : Type := mkCsvFile {
  file_name : string;
  file_columns : list string;
  file_lines : list (list string)
}.

Definition to_csv (filename : string) (rs : list Row) : CsvFile :=
  {| file_name := filename;
     file_columns := ["Name"; "Roll"; "Email"];
     file_lines := map (fun r => [Name r; Roll r; Email r]) rs |}.

(** [save_branch_files]: the files written, in order; the function
    returns their names.
<<
      for branch, students in self.branches.items():
          filename = f"branch_files/{branch}.csv"
          students[['Name', 'Roll', 'Email']].to_csv(filename, index=False)
          saved_files.append(filename)
>> *)
Definition branch_file_name (branch : string) : string :=
  String.append "branch_files/" (String.append branch ".csv").

Definition save_branch_files (self : Analyser) : list CsvFile :=
  map (fun '(branch, students) => to_csv (branch_file_name branch) students)
    (Py.items (branches self)).

(** The group files of [create_and_save_branchwise_groups] and
    [create_and_save_uniform_groups], written to [dir].
<<
      for i, group in enumerate(groups):
          if group:
              filename = f"branchwise_groups/G{i+1}.csv"
              group_df = pd.DataFrame(group)
              group_df[['Name', 'Roll', 'Email']].to_csv(filename, index=False)
              saved_files.append(filename)
>> *)
Definition group_file_name (dir : string) (i : nat) : string :=
  String.append dir
    (String.append "/G" (String.append (Py.str_of_nat (i + 1)) ".csv")).

Definition save_group_files (dir : string) (groups : Groups) : list CsvFile :=
  flat_map
    (fun '(i, group) =>
       match group with
       | [] => []
       | _ :: _ => [to_csv (group_file_name dir i) group]
       end)
    (Py.enumerate groups).

(** [saved_files] as the two operations return it: the group files, then
    the statistics file. *)
Definition branchwise_saved_files (num_groups : nat) (self : Analyser)
  : option (list string) :=
  match branchwise_groups num_groups self with
  | Some groups =>
      Some (map file_name (save_group_files "branchwise_groups" groups)
            ++ ["branchwise_groups/stats_branchwise.csv"])
  | None => None
  end.

Definition uniform_saved_files (num_groups : nat) (self : Analyser)
  : option (list string) :=
  match uniform_groups num_groups self with
  | Some groups =>
      Some (map file_name (save_group_files "uniform_groups" groups)
            ++ ["uniform_groups/stats_uniform.csv"])
  | None => None
  end.

(** ** Sample data *)

Definition student (roll name : string) : Row :=
  [("Roll", roll); ("Name", name); ("Email", String.append name "@x")].

Definition frame (rs : list Row) : DataFrame :=
  {| columns := ["Roll"; "Name"; "Email"]; rows := rs |}.

Definition name_leb (r1 r2 : Row) : bool := String.leb (Name r1) (Name r2).

(** Five students of branch AI and three of branch CB. *)
Definition ai_cb_frame : DataFrame :=
  frame [student "1401AI01" "a1"; student "1401AI02" "a2";
         student "1401AI03" "a3"; student "1401AI04" "a4";
         student "1401AI05" "a5"; student "1401CB01" "c1";
         student "1401CB02" "c2"; student "1401CB03" "c3"].

(** The same students as the index holds them. *)
Definition in_branch (b roll name : string) : Row :=
  student roll name ++ [("Branch", b)].

(** The [k]-th AI and CB student of [ai_cb_frame] as indexed. *)
Definition ai (k : string) : Row :=
  in_branch "AI" (String.append "1401AI0" k) (String.append "a" k).

Definition cb (k : string) : Row :=
  in_branch "CB" (String.append "1401CB0" k) (String.append "c" k).

(** One student in each of two branches, CB listed first. *)
Definition tie_frame : DataFrame :=
  frame [student "1401CB01" "x"; student "1401AI01" "y"].



(** A table without the Email column. *)
Definition no_email_frame : DataFrame :=
  {| columns := ["Roll"; "Name"];
     rows := [[("Roll", "1401AI01"); ("Name", "a1")]] |}.

(** A second upload, with one AI student only. *)
Definition second_frame : DataFrame :=
  frame [student "1401AI09" "zed"].

(** ** The default sort of the library *)

Module Numpy.

(** [ndarray.argsort(kind='quicksort')] on an array of Python objects, as
    numpy's [npy_aquicksort] computes it: an introsort over the array
    [tosort] of row numbers.  [pl], [pr], [pi], [pj], [pm] are positions
    in [tosort]; [lt a b] is [cmp(v[a], v[b]) < 0].  Loops are bounded by
    the length of the array, which they never exhaust. *)

Section Argsort.
Variable lt : nat -> nat -> bool.


Fixpoint set (t : list nat) (p v : nat) {struct t} : list nat :=
  match t, p with
  | [], _ => []
  | _ :: t', 0 => v :: t'
  | x :: t', S p' => x :: set t' p' v
  end.










End Argsort.

End Numpy.




(** ** Vocabulary of the specification *)

(** Every [n]-th element of [l], the first one after skipping [d]. *)
Fixpoint pick {A : Type} (n d : nat) (l : list A) : list A :=
  match l with
  | [] => []
  | x :: l' =>
      match d with
      | 0 => x :: pick n (n - 1) l'
      | S d' => pick n d' l'
      end
  end.

(** How many steps a cursor at [cur] needs to reach bucket [i], cyclically. *)
Definition dist (n cur i : nat) : nat :=
  if cur <=? i then i - cur else i + n - cur.

(** The records of a branch in the index, none if the branch is unknown. *)
Definition students_of (self : Analyser) (branch : string) : list Row :=
  match Py.dict_get branch (branches self) with
  | Some students => students
  | None => []
  end.

(** The order in which the round-robin allocator visits the records. *)
Definition visit_order (self : Analyser) : list Row :=
  flat_map (students_of self) (Py.sorted String.leb (Py.keys (branches self))).

(** All the records of the index. *)
Definition all_records (self : Analyser) : list Row :=
  concat (Py.values (branches self)).

(** The index is a dictionary (no key twice) and files every record under
    its own branch code. *)
Definition index_wf (d : Py.dict (list Row)) : Prop :=
  NoDup (Py.keys d) /\
  Forall (fun kv => Forall (fun r => Branch r = fst kv) (snd kv)) d.

(** The states an analyser goes through: created, then any number of
    uploads, accepted or not. *)
Inductive reachable {SV : SortValues} : Analyser -> Prop :=
| reach_init : reachable init
| reach_load (uploaded : option DataFrame) (self : Analyser) :
    reachable self -> reachable (fst (load_data uploaded self)).

(** The row the statistics should hold for bucket [i]. *)
Definition expected_row (branch_names : list string) (i : nat)
  (group : list Row) : StatsRow :=
  {| row_label := String.append "G" (Py.str_of_nat (i + 1));
     row_counts := map (fun b => branch_count b group) branch_names;
     row_total := List.length group |}.

Definition nonempty {A : Type} (l : list A) : bool :=
  match l with [] => false | _ :: _ => true end.

(** The record has the column: [c in record]. *)
Definition has_column (c : string) (r : Row) : bool :=
  existsb (String.eqb c) (Py.keys r).


(** Among branches of equal size the smaller code comes first. *)
Fixpoint ties_by_code (order : list (string * list Row)) : bool :=
  match order with
  | [] => true
  | x :: rest =>
      forallb
        (fun y => negb (List.length (snd x) =? List.length (snd y))
                  || String.ltb (fst x) (fst y)) rest
      && ties_by_code rest
  end.

(** The non-empty buckets with their positions. *)
Definition occupied (groups : Groups) : list (nat * list Row) :=
  filter (fun ig => nonempty (snd ig)) (Py.enumerate groups).

(** The statistics table agrees with the buckets it was computed from. *)
Definition stats_ok (self : Analyser) (groups : Groups) (table : StatsTable)
  : Prop :=
  let names := Py.sorted String.leb (Py.keys (branches self)) in
  header table = ["Group"] ++ names ++ ["Total"] /\
  StronglySorted (fun a b => String.leb a b = true) names /\
  Permutation names (Py.keys (branches self)) /\
  stats_data table =
    map (fun ig => expected_row names (fst ig) (snd ig)) (occupied groups) /\
  Forall (fun row => list_sum (row_counts row) = row_total row)
    (stats_data table) /\
  list_sum (map row_total (stats_data table)) = List.length (concat groups).

(** The records in the order the size-balanced allocator visits them. *)
Definition fill_order (self : Analyser) : list Row :=
  flat_map snd (sorted_branches self).

(** What the size-balanced loop maintains: the buckets left of the cursor
    hold exactly [target] records, those right of it are empty, and the
    bucket under the cursor is not over [target] unless it is the last. *)
Definition uniform_inv (n target : nat) (st : Groups * nat) : Prop :=
  let '(groups, cur) := st in
  List.length groups = n /\ cur < n /\
  (forall i, i < cur -> List.length (nth i groups []) = target) /\
  (forall i, cur < i -> nth i groups [] = []) /\
  (cur < n - 1 -> List.length (nth cur groups []) <= target) /\
  List.length (concat groups) = cur * target + List.length (nth cur groups []).

(** ** The summary [main] shows after a successful load
<<
      st.metric("Total Students", len(st.session_state.grouping.students_df))
      st.metric("Total Branches", len(st.session_state.grouping.branches))
      for branch in sorted(st.session_state.grouping.branches.keys()):
          count = len(st.session_state.grouping.branches[branch])
          st.write(f"**{branch}**: {count} students")
>> *)
Record Summary : Type := mkSummary {
  shown_students : nat;
  shown_branches : nat;
  shown_counts : list (string * nat)
}.

Definition summary (self : Analyser) : option Summary :=
  match students_df self with
  | None => None
  | Some df =>
      Some {| shown_students := List.length (rows df);
              shown_branches := List.length (branches self);
              shown_counts :=
                map (fun branch => (branch, List.length (students_of self branch)))
                  (Py.sorted String.leb (Py.keys (branches self))) |}
  end.

(** * Properties *)

(** ** The stable sort *)

Section SortedFacts.
Context {A : Type} (le : A -> A -> bool).

Lemma insert_perm (x : A) (l : list A) : Permutation (x :: l) (Py.insert le x l).
Proof.
  induction l as [|y l IH]; simpl; [reflexivity|].
  destruct (le x y); [reflexivity|].
  rewrite perm_swap. now constructor.
Qed.

Lemma sorted_perm (l : list A) : Permutation l (Py.sorted le l).
Proof.
  induction l as [|x l IH]; simpl; [constructor|].
  rewrite <- insert_perm. now constructor.
Qed.

Lemma sorted_length (l : list A) : List.length (Py.sorted le l) = List.length l.
Proof. symmetry. apply Permutation_length, sorted_perm. Qed.

(** Stability: a class of elements that may all precede one another keeps
    its input order. *)
Lemma insert_filter (p : A -> bool) (x : A) (l : list A) :
  (forall a b, p a = true -> p b = true -> le a b = true) ->
  filter p (Py.insert le x l) = filter p (x :: l).
Proof.
  intros Hp. induction l as [|y l IH]; [reflexivity|].
  simpl. destruct (le x y) eqn:Hxy; [reflexivity|].
  simpl in *. rewrite IH.
  destruct (p x) eqn:Hx, (p y) eqn:Hy; try reflexivity.
  rewrite (Hp x y Hx Hy) in Hxy. discriminate.
Qed.

Lemma sorted_stable (p : A -> bool) (l : list A) :
  (forall a b, p a = true -> p b = true -> le a b = true) ->
  filter p (Py.sorted le l) = filter p l.
Proof.
  intros Hp. induction l as [|x l IH]; [reflexivity|].
  simpl Py.sorted. rewrite insert_filter by assumption.
  simpl. now rewrite IH.
Qed.

Hypothesis le_total : forall a b, le a b = true \/ le b a = true.
Hypothesis le_trans : forall a b c, le a b = true -> le b c = true -> le a c = true.

Lemma insert_sorted (x : A) (l : list A) :
  StronglySorted (fun a b => le a b = true) l ->
  StronglySorted (fun a b => le a b = true) (Py.insert le x l).
Proof.
  induction 1 as [|y l Hs IH Hy]; simpl.
  - repeat constructor.
  - destruct (le x y) eqn:Hxy.
    + constructor; [now constructor|].
      constructor; [assumption|].
      rewrite Forall_forall in *. intros z Hz. eauto.
    + constructor; [assumption|].
      rewrite Forall_forall in *. intros z Hz.
      apply (Permutation_in _ (Permutation_sym (insert_perm x l))) in Hz.
      destruct Hz as [<-|Hz]; [|auto].
      destruct (le_total x y) as [H|H]; congruence.
Qed.

Lemma sorted_sorted (l : list A) :
  StronglySorted (fun a b => le a b = true) (Py.sorted le l).
Proof.
  induction l as [|x l IH]; simpl; [constructor|now apply insert_sorted].
Qed.
End SortedFacts.

(** The order on strings that [sorted] and [sort_values] compare with. *)
Lemma string_leb_total (a b : string) : String.leb a b = true \/ String.leb b a = true.
Proof. apply String.leb_total. Qed.

Lemma string_leb_trans (a b c : string) :
  String.leb a b = true -> String.leb b c = true -> String.leb a c = true.
Proof.
  unfold String.leb.
  destruct (String.compare a b) eqn:Hab; try discriminate;
    destruct (String.compare b c) eqn:Hbc; try discriminate; intros _ _.
  - apply String.compare_eq_iff in Hab. subst. now rewrite Hbc.
  - apply String.compare_eq_iff in Hab. subst. now rewrite Hbc.
  - apply String.compare_eq_iff in Hbc. subst. now rewrite Hab.
  - apply String_as_OT.cmp_lt in Hab, Hbc.
    pose proof (String_as_OT.lt_trans _ _ _ Hab Hbc) as H.
    apply String_as_OT.cmp_lt in H. unfold String_as_OT.cmp in H. now rewrite H.
Qed.

Lemma string_leb_refl (a : string) : String.leb a a = true.
Proof. destruct (String.leb_total a a); assumption. Qed.

(** ** Two sorts that meet the contract of [sort_values] *)

Lemma name_leb_sorted (rs : list Row) : StronglySorted name_le (Py.sorted name_leb rs).
Proof.
  apply (sorted_sorted name_leb).
  - intros a b. apply string_leb_total.
  - intros a b c. apply string_leb_trans.
Qed.

(** A stable one: ties keep the input order. *)
#[local] Instance stable_sort : SortValues := {|
  sort_values := Py.sorted name_leb;
  sort_values_perm := sorted_perm name_leb;
  sort_values_sorted := name_leb_sorted
|}.






(** ** Loops and in-place appends *)

Section LoopFacts.
Context {A : Type}.

Lemma for_each_app {S : Type} (body : S -> A -> option S) (l1 l2 : list A) (s : S) :
  Py.for_each body (l1 ++ l2) s =
  match Py.for_each body l1 s with
  | Some s' => Py.for_each body l2 s'
  | None => None
  end.
Proof.
  revert s. induction l1 as [|x l1 IH]; intros s; simpl; [reflexivity|].
  destruct (body s x); [apply IH|reflexivity].
Qed.

(** A loop over the items of a list of lists is a loop over their
    concatenation. *)
Lemma for_each_nested {S B : Type} (body : S -> A -> option S)
  (inner : B -> list A) (bs : list B) (s : S) :
  Py.for_each (fun s b => Py.for_each body (inner b) s) bs s =
  Py.for_each body (flat_map inner bs) s.
Proof.
  revert s. induction bs as [|b bs IH]; intros s; simpl; [reflexivity|].
  rewrite for_each_app. destruct (Py.for_each body (inner b) s); [apply IH|reflexivity].
Qed.

Lemma append_at_some (i : nat) (x : A) (ls : list (list A)) :
  i < List.length ls -> exists ls', Py.append_at i x ls = Some ls'.
Proof.
  revert i. induction ls as [|l ls IH]; intros i Hi; simpl in *; [lia|].
  destruct i as [|i]; simpl; [eauto|].
  destruct (IH i) as [ls' ->]; [lia|eauto].
Qed.

Lemma append_at_length (i : nat) (x : A) (ls ls' : list (list A)) :
  Py.append_at i x ls = Some ls' -> List.length ls' = List.length ls.
Proof.
  revert i ls'. induction ls as [|l ls IH]; intros i ls' H; simpl in *; [discriminate|].
  destruct i as [|i].
  - injection H as <-. reflexivity.
  - destruct (Py.append_at i x ls) eqn:E; [|discriminate].
    injection H as <-. simpl. f_equal. eapply IH; eassumption.
Qed.

Lemma append_at_nth (i : nat) (x : A) (ls ls' : list (list A)) :
  Py.append_at i x ls = Some ls' ->
  forall j, nth j ls' [] = if j =? i then nth j ls [] ++ [x] else nth j ls [].
Proof.
  revert i ls'. induction ls as [|l ls IH]; intros i ls' H j; simpl in *; [discriminate|].
  destruct i as [|i].
  - injection H as <-. destruct j; reflexivity.
  - destruct (Py.append_at i x ls) eqn:E; [|discriminate].
    injection H as <-. destruct j as [|j]; [reflexivity|].
    simpl. apply (IH _ _ E).
Qed.

Lemma append_at_concat (i : nat) (x : A) (ls ls' : list (list A)) :
  Py.append_at i x ls = Some ls' -> Permutation (concat ls') (x :: concat ls).
Proof.
  revert i ls'. induction ls as [|l ls IH]; intros i ls' H; simpl in *; [discriminate|].
  destruct i as [|i].
  - injection H as <-. simpl. rewrite <- app_assoc. simpl.
    symmetry. apply Permutation_middle.
  - destruct (Py.append_at i x ls) eqn:E; [|discriminate].
    injection H as <-. simpl. rewrite (IH _ _ E).
    symmetry. apply Permutation_middle.
Qed.


(** *** Every [n]-th element *)

Lemma pick_nth_error (n : nat) (l : list A) :
  1 <= n -> forall d j, nth_error (pick n d l) j = nth_error l (d + j * n).
Proof.
  intros Hn. induction l as [|x l IH]; intros d j; simpl.
  - generalize (d + j * n). intros m. now destruct j, m.
  - destruct d as [|d].
    + destruct j as [|j]; simpl; [reflexivity|].
      rewrite IH. destruct n as [|n]; [lia|].
      simpl. f_equal. lia.
    + simpl. apply IH.
Qed.

Lemma pick_length (n : nat) (l : list A) :
  1 <= n -> forall d, d < n ->
  List.length l <= d + n * List.length (pick n d l) < List.length l + n.
Proof.
  intros Hn. induction l as [|x l IH]; intros d Hd; simpl.
  - lia.
  - destruct d as [|d]; simpl.
    + specialize (IH (n - 1)). lia.
    + specialize (IH d). lia.
Qed.

Lemma pick_app (n : nat) (l1 l2 : list A) :
  1 <= n -> forall d, d < n ->
  exists d', d' < n /\ pick n d (l1 ++ l2) = pick n d l1 ++ pick n d' l2.
Proof.
  intros Hn. induction l1 as [|x l1 IH]; intros d Hd; simpl.
  - eauto.
  - destruct d as [|d].
    + destruct (IH (n - 1)) as (d' & Hd' & ->); [lia|]. eauto.
    + destruct (IH d) as (d' & Hd' & ->); [lia|]. eauto.
Qed.

Lemma pick_Forall (P : A -> Prop) (n : nat) (l : list A) :
  Forall P l -> forall d, Forall P (pick n d l).
Proof.
  induction 1 as [|x l Hx Hl IH]; intros d; simpl; [constructor|].
  destruct d; [constructor|]; auto.
Qed.
End LoopFacts.

(** ** Dictionaries *)

Section DictFacts.
Context {V : Type}.
Implicit Types (d : Py.dict V) (k : string) (v : V).

Lemma dict_get_in k d : In k (Py.keys d) -> exists v, Py.dict_get k d = Some v.
Proof.
  induction d as [|[k' v'] d IH]; simpl; [tauto|].
  intros [->|H].
  - rewrite String.eqb_refl. eauto.
  - destruct (String.eqb k' k); eauto.
Qed.

Lemma dict_get_none k d : ~ In k (Py.keys d) -> Py.dict_get k d = None.
Proof.
  induction d as [|[k' v'] d IH]; simpl; [reflexivity|].
  intros H. destruct (String.eqb_spec k' k); [tauto|]. apply IH. tauto.
Qed.

Lemma dict_get_some k v d : Py.dict_get k d = Some v -> In (k, v) d.
Proof.
  induction d as [|[k' v'] d IH]; simpl; [discriminate|].
  destruct (String.eqb_spec k' k) as [->|Hne].
  - intros [= ->]. now left.
  - auto.
Qed.

Lemma dict_set_fresh k v d : ~ In k (Py.keys d) -> Py.dict_set k v d = d ++ [(k, v)].
Proof.
  induction d as [|[k' v'] d IH]; simpl; [reflexivity|].
  intros H. destruct (String.eqb_spec k' k); [tauto|].
  rewrite IH; tauto.
Qed.

Lemma dict_set_keys_old k v d : In k (Py.keys d) -> Py.keys (Py.dict_set k v d) = Py.keys d.
Proof.
  induction d as [|[k' v'] d IH]; simpl; [tauto|].
  destruct (String.eqb_spec k' k) as [->|Hne]; [reflexivity|].
  intros [H|H]; [congruence|]. simpl. f_equal. now apply IH.
Qed.

Lemma dict_set_keys_in k k' v d :
  In k' (Py.keys (Py.dict_set k v d)) <-> k' = k \/ In k' (Py.keys d).
Proof.
  destruct (in_dec string_dec k (Py.keys d)) as [Hin|Hnin].
  - rewrite dict_set_keys_old by assumption. intuition congruence.
  - rewrite dict_set_fresh by assumption.
    unfold Py.keys. rewrite map_app, in_app_iff. simpl. intuition congruence.
Qed.

Lemma dict_set_nodup k v d : NoDup (Py.keys d) -> NoDup (Py.keys (Py.dict_set k v d)).
Proof.
  intros Hd. destruct (in_dec string_dec k (Py.keys d)) as [Hin|Hnin].
  - now rewrite dict_set_keys_old.
  - rewrite dict_set_fresh by assumption.
    unfold Py.keys in *. rewrite map_app. simpl.
    apply NoDup_app; [assumption|repeat constructor; simpl; tauto|].
    intros a Ha [<-|[]]. tauto.
Qed.

Lemma dict_get_set k k' v d :
  Py.dict_get k' (Py.dict_set k v d) =
  if String.eqb k k' then Some v else Py.dict_get k' d.
Proof.
  induction d as [|[k0 v0] d IH]; simpl.
  - reflexivity.
  - destruct (String.eqb_spec k0 k) as [->|Hne]; simpl.
    + destruct (String.eqb k k'); reflexivity.
    + destruct (String.eqb_spec k0 k') as [->|Hne'].
      * destruct (String.eqb_spec k k'); congruence.
      * apply IH.
Qed.

Lemma dict_set_Forall (P : string * V -> Prop) k v d :
  Forall P d -> P (k, v) -> Forall P (Py.dict_set k v d).
Proof.
  intros Hd Hkv. induction Hd as [|[k' v'] d Hk' Hd IH]; simpl.
  - now repeat constructor.
  - destruct (String.eqb_spec k' k) as [->|Hne]; constructor; auto.
Qed.

(** Looking every key up gives back the values, in order. *)
Lemma lookup_keys {B : Type} (f : option V -> list B) (g : V -> list B) d d0 :
  NoDup (Py.keys d) ->
  (forall k, In k (Py.keys d) -> Py.dict_get k d0 = Py.dict_get k d) ->
  (forall v, f (Some v) = g v) ->
  flat_map (fun k => f (Py.dict_get k d0)) (Py.keys d) = flat_map g (Py.values d).
Proof.
  intros Hnd Hget Hf. induction d as [|[k v] d IH]; simpl in *; [reflexivity|].
  inversion Hnd as [|? ? Hk Hnd']; subst.
  rewrite (Hget k (or_introl eq_refl)), String.eqb_refl, Hf. simpl. f_equal.
  apply IH; [assumption|].
  intros k' Hk'. rewrite Hget by now right.
  destruct (String.eqb_spec k k'); congruence.
Qed.
End DictFacts.

(** ** The round-robin allocator *)

Lemma empty_groups_length (n : nat) : List.length (empty_groups n) = n.
Proof. apply repeat_length. Qed.

Lemma empty_groups_nth (n j : nat) : nth j (empty_groups n) [] = [].
Proof.
  unfold empty_groups. revert j. induction n as [|n IH]; intros [|j]; simpl; auto.
Qed.

Lemma empty_groups_concat (n : nat) : concat (empty_groups n) = [].
Proof. unfold empty_groups. induction n; simpl; auto. Qed.

Lemma for_each_ext_in {A S : Type} (f g : S -> A -> option S) (l : list A) (s : S) :
  (forall s x, In x l -> f s x = g s x) -> Py.for_each f l s = Py.for_each g l s.
Proof.
  revert s. induction l as [|x l IH]; intros s H; simpl; [reflexivity|].
  rewrite (H s x) by now left.
  destruct (g s x); [|reflexivity]. apply IH. intros; apply H. now right.
Qed.

Lemma next_cursor (n cur : nat) :
  cur < n -> (cur + 1) mod n = if cur + 1 =? n then 0 else cur + 1.
Proof.
  intros H. destruct (Nat.eqb_spec (cur + 1) n) as [<-|Hne].
  - apply Nat.Div0.mod_same.
  - apply Nat.mod_small. lia.
Qed.

(** Dealing the list [l] from cursor [cur] on: bucket [i] receives every
    [n]-th record, the first one [dist n cur i] records from now. *)
Lemma rr_students_spec (n : nat) (l : list Row) :
  1 <= n -> forall (groups : Groups) (cur : nat),
  List.length groups = n -> cur < n ->
  exists groups' cur',
    Py.for_each (rr_student n) l (groups, cur) = Some (groups', cur') /\
    List.length groups' = n /\ cur' < n /\
    forall i, i < n -> nth i groups' [] = nth i groups [] ++ pick n (dist n cur i) l.
Proof.
  intros Hn. induction l as [|x l IH]; intros groups cur Hlen Hcur.
  - exists groups, cur. simpl. repeat split; auto.
    intros. now rewrite app_nil_r.
  - simpl. destruct (append_at_some cur x groups) as [g1 Hg1]; [lia|].
    rewrite Hg1. destruct (Nat.eqb_spec n 0) as [|_]; [lia|].
    pose proof (append_at_length _ _ _ _ Hg1) as Hl1.
    pose proof (append_at_nth _ _ _ _ Hg1) as Hn1.
    assert (Hc1 : (cur + 1) mod n < n) by (apply Nat.mod_upper_bound; lia).
    destruct (IH g1 ((cur + 1) mod n)) as (g2 & c2 & Hrun & Hl2 & Hc2 & Hn2);
      [lia|assumption|].
    exists g2, c2. repeat split; auto.
    intros i Hi. rewrite (Hn2 i Hi), Hn1.
    rewrite next_cursor by assumption. unfold dist.
    destruct (Nat.eqb_spec i cur) as [->|Hic].
    + rewrite Nat.leb_refl, Nat.sub_diag. simpl. rewrite <- app_assoc. simpl.
      do 2 f_equal.
      destruct (Nat.eqb_spec (cur + 1) n); simpl.
      * f_equal. lia.
      * destruct (Nat.leb_spec (cur + 1) cur); [lia|]. f_equal. lia.
    + f_equal.
      destruct (Nat.leb_spec cur i).
      * destruct (i - cur) as [|m] eqn:Hm; [lia|].
        simpl. f_equal.
        destruct (Nat.eqb_spec (cur + 1) n); simpl; [lia|].
        destruct (Nat.leb_spec (cur + 1) i); lia.
      * destruct (i + n - cur) as [|m] eqn:Hm; [lia|].
        simpl. f_equal.
        destruct (Nat.eqb_spec (cur + 1) n); simpl; [lia|].
        destruct (Nat.leb_spec (cur + 1) i); lia.
Qed.

Lemma rr_students_perm (n : nat) (l : list Row) :
  forall (groups groups' : Groups) (cur cur' : nat),
  Py.for_each (rr_student n) l (groups, cur) = Some (groups', cur') ->
  Permutation (concat groups') (concat groups ++ l).
Proof.
  induction l as [|x l IH]; intros groups groups' cur cur' H; simpl in H.
  - injection H as <- <-. now rewrite app_nil_r.
  - destruct (Py.append_at cur x groups) as [g1|] eqn:Hg1; [|discriminate].
    destruct (n =? 0); [discriminate|].
    rewrite (IH _ _ _ _ H), (append_at_concat _ _ _ _ Hg1).
    simpl. apply Permutation_middle.
Qed.

Lemma sorted_keys_in (self : Analyser) (b : string) :
  In b (Py.sorted String.leb (Py.keys (branches self))) <->
  In b (Py.keys (branches self)).
Proof.
  split; apply Permutation_in;
    [symmetry|]; apply sorted_perm.
Qed.

(** The two nested loops are one loop over the visiting order. *)
Lemma rr_loop_flat (n : nat) (self : Analyser) (st : Groups * nat) :
  Py.for_each (rr_branch n self)
    (Py.sorted String.leb (Py.keys (branches self))) st =
  Py.for_each (rr_student n) (visit_order self) st.
Proof.
  unfold visit_order. rewrite <- for_each_nested.
  apply for_each_ext_in. intros s b Hb.
  apply sorted_keys_in in Hb. unfold rr_branch, students_of.
  destruct (dict_get_in _ _ Hb) as [v ->]. reflexivity.
Qed.

Lemma visit_order_perm (self : Analyser) :
  NoDup (Py.keys (branches self)) ->
  Permutation (visit_order self) (all_records self).
Proof.
  intros Hnd. unfold visit_order, all_records.
  rewrite <- (Permutation_flat_map _ (sorted_perm String.leb (Py.keys (branches self)))).
  unfold students_of.
  rewrite (lookup_keys
             (fun o => match o with Some s => s | None => [] end) (fun s => s)
             (branches self) (branches self)) by auto.
  rewrite flat_map_concat_map, map_id. reflexivity.
Qed.

Lemma branchwise_groups_spec (n : nat) (self : Analyser) :
  1 <= n ->
  exists groups,
    branchwise_groups n self = Some groups /\
    List.length groups = n /\
    (forall i, i < n -> nth i groups [] = pick n i (visit_order self)) /\
    Permutation (concat groups) (visit_order self).
Proof.
  intros Hn. unfold branchwise_groups. cbv zeta. rewrite rr_loop_flat.
  destruct (rr_students_spec n (visit_order self) Hn (empty_groups n) 0)
    as (g & c & Hrun & Hlen & Hc & Hnth); [apply empty_groups_length|lia|].
  rewrite Hrun. exists g. repeat split; auto.
  - intros i Hi. rewrite (Hnth i Hi), empty_groups_nth. simpl.
    unfold dist. simpl. now rewrite Nat.sub_0_r.
  - rewrite (rr_students_perm _ _ _ _ _ _ Hrun), empty_groups_concat. reflexivity.
Qed.

(** ** The size-balanced allocator *)

Lemma ceil_div_pos (a b : nat) : 1 <= a -> 1 <= b -> 1 <= Py.ceil_div a b.
Proof.
  intros Ha Hb. unfold Py.ceil_div.
  apply Nat.div_le_lower_bound; lia.
Qed.

Lemma ceil_div_covers (a b : nat) : 1 <= b -> a <= b * Py.ceil_div a b.
Proof.
  intros Hb. unfold Py.ceil_div.
  pose proof (Nat.div_mod (a + b - 1) b ltac:(lia)) as Hdm.
  pose proof (Nat.mod_upper_bound (a + b - 1) b ltac:(lia)) as Hlt.
  lia.
Qed.

Lemma uniform_student_step (n target : nat) (st : Groups * nat) (x : Row) :
  1 <= target -> uniform_inv n target st ->
  exists st',
    uniform_student n target st x = Some st' /\
    uniform_inv n target st' /\
    Permutation (concat (fst st')) (x :: concat (fst st)).
Proof.
  intros Ht. destruct st as [groups cur].
  intros (Hlen & Hcur & Hfull & Hempty & Hle & Hsum).
  unfold uniform_student.
  rewrite (nth_error_nth' groups [] (n := cur)) by lia.
  set (g := nth cur groups []) in *.
  destruct ((target <=? List.length g) && (cur <? n - 1)) eqn:Htest.
  - apply andb_true_iff in Htest. destruct Htest as [H1 H2].
    apply Nat.leb_le in H1. apply Nat.ltb_lt in H2.
    destruct (append_at_some (cur + 1) x groups) as [g1 Hg1]; [lia|].
    rewrite Hg1. exists (g1, cur + 1).
    pose proof (append_at_nth _ _ _ _ Hg1) as Hn1.
    pose proof (append_at_concat _ _ _ _ Hg1) as Hp1.
    split; [reflexivity|]. split; [|exact Hp1].
    unfold uniform_inv.
    rewrite (append_at_length _ _ _ _ Hg1).
    repeat split; try lia.
    + intros i Hi. rewrite Hn1.
      destruct (Nat.eqb_spec i (cur + 1)); [lia|].
      destruct (Nat.eq_dec i cur) as [->|]; [fold g; lia|apply Hfull; lia].
    + intros i Hi. rewrite Hn1.
      destruct (Nat.eqb_spec i (cur + 1)); [lia|]. apply Hempty; lia.
    + intros _. rewrite Hn1, Nat.eqb_refl, (Hempty (cur + 1)) by lia.
      simpl. lia.
    + rewrite (Permutation_length Hp1). simpl. rewrite Hsum.
      rewrite Hn1, Nat.eqb_refl, (Hempty (cur + 1)) by lia.
      simpl. specialize (Hle H2). fold g in Hle. lia.
  - destruct (append_at_some cur x groups) as [g1 Hg1]; [lia|].
    rewrite Hg1. exists (g1, cur).
    pose proof (append_at_nth _ _ _ _ Hg1) as Hn1.
    pose proof (append_at_concat _ _ _ _ Hg1) as Hp1.
    split; [reflexivity|]. split; [|exact Hp1].
    unfold uniform_inv.
    rewrite (append_at_length _ _ _ _ Hg1).
    repeat split; try lia.
    + intros i Hi. rewrite Hn1.
      destruct (Nat.eqb_spec i cur); [lia|]. apply Hfull; lia.
    + intros i Hi. rewrite Hn1.
      destruct (Nat.eqb_spec i cur); [lia|]. apply Hempty; lia.
    + intros Hc. rewrite Hn1, Nat.eqb_refl, length_app. simpl. fold g.
      apply andb_false_iff in Htest. destruct Htest as [H|H].
      * apply Nat.leb_gt in H. lia.
      * apply Nat.ltb_ge in H. lia.
    + rewrite (Permutation_length Hp1). simpl. rewrite Hsum.
      rewrite Hn1, Nat.eqb_refl, length_app. simpl. fold g. lia.
Qed.

Lemma uniform_students_spec (n target : nat) (l : list Row) :
  (l <> [] -> 1 <= target) ->
  forall st, uniform_inv n target st ->
  exists st',
    Py.for_each (uniform_student n target) l st = Some st' /\
    uniform_inv n target st' /\
    Permutation (concat (fst st')) (concat (fst st) ++ l).
Proof.
  intros Ht. induction l as [|x l IH]; intros st Hinv.
  - exists st. simpl. rewrite app_nil_r. auto.
  - assert (H1 : 1 <= target) by (apply Ht; discriminate).
    destruct (uniform_student_step n target st x H1 Hinv) as (st1 & Hs & Hi1 & Hp1).
    simpl. rewrite Hs.
    destruct (IH (fun _ => H1) st1 Hi1) as (st2 & Hr & Hi2 & Hp2).
    exists st2. repeat split; auto.
    rewrite Hp2, Hp1. simpl. apply Permutation_middle.
Qed.

Lemma uniform_inv_init (n target : nat) :
  1 <= n -> uniform_inv n target (empty_groups n, 0).
Proof.
  intros Hn. unfold uniform_inv.
  rewrite empty_groups_length, empty_groups_concat, empty_groups_nth.
  repeat split; simpl; try lia.
  intros. apply empty_groups_nth.
Qed.

Lemma flat_map_snd_length {K : Type} (d : list (K * list Row)) :
  List.length (flat_map snd d) = list_sum (map (@List.length Row) (map snd d)).
Proof.
  induction d as [|[k v] d IH]; simpl; [reflexivity|].
  now rewrite length_app, IH.
Qed.

Lemma fill_order_perm (self : Analyser) :
  Permutation (fill_order self) (all_records self).
Proof.
  unfold fill_order, all_records, sorted_branches, Py.items, Py.values.
  rewrite <- (Permutation_flat_map _ (sorted_perm by_size_desc (branches self))).
  now rewrite flat_map_concat_map.
Qed.

Lemma all_records_length (self : Analyser) :
  List.length (all_records self) = total_students self.
Proof.
  unfold all_records, total_students, Py.values.
  rewrite <- flat_map_snd_length. now rewrite flat_map_concat_map.
Qed.

Lemma uniform_run_spec (n : nat) (self : Analyser) :
  1 <= n ->
  exists groups cur,
    uniform_run n self = Some (groups, cur) /\
    target_size n self = Some (Py.ceil_div (total_students self) n) /\
    uniform_inv n (Py.ceil_div (total_students self) n) (groups, cur) /\
    Permutation (concat groups) (fill_order self).
Proof.
  intros Hn. unfold uniform_run, target_size. cbv zeta.
  destruct (Nat.eqb_spec n 0) as [|_]; [lia|].
  set (t := Py.ceil_div (total_students self) n).
  assert (Hflat : Py.for_each (uniform_branch n t) (sorted_branches self) (empty_groups n, 0)
                  = Py.for_each (uniform_student n t) (fill_order self) (empty_groups n, 0)).
  { unfold fill_order. rewrite <- for_each_nested. reflexivity. }
  rewrite Hflat.
  destruct (uniform_students_spec n t (fill_order self)) with (st := (empty_groups n, 0))
    as ([groups cur] & Hrun & Hinv & Hperm).
  - intros Hne. apply ceil_div_pos; [|assumption].
    rewrite <- all_records_length, <- (Permutation_length (fill_order_perm self)).
    destruct (fill_order self); [congruence|simpl; lia].
  - now apply uniform_inv_init.
  - exists groups, cur. rewrite Hrun.
    split; [reflexivity|]. split; [reflexivity|]. split; [exact Hinv|].
    simpl in Hperm. now rewrite empty_groups_concat in Hperm.
Qed.

(** No bucket is over the target, the last one included. *)
Lemma uniform_inv_bound (n target total : nat) (groups : Groups) (cur : nat) :
  1 <= n -> total <= n * target ->
  uniform_inv n target (groups, cur) ->
  List.length (concat groups) = total ->
  forall i, List.length (nth i groups []) <= target.
Proof.
  intros Hn Hcov (Hlen & Hcur & Hfull & Hempty & Hle & Hsum) Htot i.
  destruct (Nat.lt_trichotomy i cur) as [Hi|[->|Hi]].
  - rewrite Hfull; lia.
  - destruct (Nat.eq_dec cur (n - 1)) as [Hlast|Hnl]; [|apply Hle; lia].
    assert (n * target = cur * target + target) by (subst cur; nia).
    lia.
  - rewrite Hempty by assumption. simpl. lia.
Qed.

(** ** The loader *)

Lemma unique_in (x : string) (l : list string) : In x (unique l) <-> In x l.
Proof.
  induction l as [|y l IH]; simpl; [tauto|].
  rewrite filter_In, IH.
  destruct (String.eqb_spec x y) as [->|Hne]; simpl; intuition congruence.
Qed.

Lemma unique_nodup (l : list string) : NoDup (unique l).
Proof.
  induction l as [|y l IH]; simpl; constructor.
  - rewrite filter_In, String.eqb_refl. simpl. intuition discriminate.
  - now apply NoDup_filter.
Qed.

Lemma select_branch_Forall (b : string) (rs : list Row) :
  Forall (fun r => Branch r = b) (select_branch b rs).
Proof.
  apply Forall_forall. intros r Hr. apply filter_In in Hr.
  now apply String.eqb_eq.
Qed.

Lemma select_branch_none (b : string) (rs : list Row) :
  Forall (fun r => Branch r <> b) rs -> select_branch b rs = [].
Proof.
  induction 1 as [|r rs Hr Hrs IH]; simpl; [reflexivity|].
  destruct (String.eqb_spec (Branch r) b); [contradiction|assumption].
Qed.

Lemma select_branch_all (b : string) (rs : list Row) :
  Forall (fun r => Branch r = b) rs -> select_branch b rs = rs.
Proof.
  induction 1 as [|r rs Hr Hrs IH]; simpl; [reflexivity|].
  rewrite Hr, String.eqb_refl. f_equal. exact IH.
Qed.

Lemma flat_map_agree {A B : Type} (g h : A -> list B) (l : list A) :
  (forall a, In a l -> g a = h a) -> flat_map g l = flat_map h l.
Proof.
  induction l as [|a l IH]; intros H; simpl; [reflexivity|].
  rewrite (H a) by now left. f_equal. apply IH. intros; apply H. now right.
Qed.

(** Selecting every branch of a duplicate-free list of codes that covers
    the rows gives all the rows back. *)
Lemma select_all_branches (bs : list string) (rs : list Row) :
  NoDup bs -> Forall (fun r => In (Branch r) bs) rs ->
  Permutation (flat_map (fun b => select_branch b rs) bs) rs.
Proof.
  intros Hnd. induction 1 as [|r rs Hr Hrs IH].
  - clear Hnd. induction bs; simpl; auto.
  - destruct (in_split _ _ Hr) as (b1 & b2 & ->).
    apply NoDup_remove_2 in Hnd. rewrite in_app_iff in Hnd.
    rewrite flat_map_app in *. simpl in *.
    rewrite String.eqb_refl.
    assert (Hskip : forall l, ~ In (Branch r) l ->
              flat_map (fun b => select_branch b (r :: rs)) l =
              flat_map (fun b => select_branch b rs) l).
    { intros l Hl. apply flat_map_agree. intros b Hb. simpl.
      destruct (String.eqb_spec (Branch r) b); [subst; tauto|reflexivity]. }
    rewrite !Hskip by tauto.
    rewrite <- app_comm_cons, <- Permutation_middle.
    constructor. exact IH.
Qed.

Section LoadFacts.
Variable f : string -> list Row.

Let set_all (bs : list string) (d : Py.dict (list Row)) : Py.dict (list Row) :=
  fold_left (fun d b => Py.dict_set b (f b) d) bs d.

Lemma set_all_fresh (bs : list string) (d : Py.dict (list Row)) :
  NoDup bs -> (forall b, In b bs -> ~ In b (Py.keys d)) ->
  set_all bs d = d ++ map (fun b => (b, f b)) bs.
Proof.
  revert d. induction bs as [|b bs IH]; intros d Hnd Hfresh; simpl.
  - now rewrite app_nil_r.
  - inversion Hnd as [|? ? Hb Hnd']; subst.
    rewrite IH; [| assumption |].
    + rewrite dict_set_fresh by (apply Hfresh; now left).
      now rewrite <- app_assoc.
    + intros b' Hb'. rewrite dict_set_keys_in.
      intros [->|H]; [tauto|]. apply (Hfresh b'); [now right|assumption].
Qed.

Lemma set_all_keys (bs : list string) (d : Py.dict (list Row)) (k : string) :
  In k (Py.keys (set_all bs d)) <-> In k bs \/ In k (Py.keys d).
Proof.
  revert d. induction bs as [|b bs IH]; intros d; simpl; [tauto|].
  rewrite IH, dict_set_keys_in. intuition congruence.
Qed.

Lemma set_all_nodup (bs : list string) (d : Py.dict (list Row)) :
  NoDup (Py.keys d) -> NoDup (Py.keys (set_all bs d)).
Proof.
  revert d. induction bs as [|b bs IH]; intros d Hd; simpl; [assumption|].
  apply IH. now apply dict_set_nodup.
Qed.

Lemma set_all_get_old (bs : list string) (d : Py.dict (list Row)) (k : string) :
  ~ In k bs -> Py.dict_get k (set_all bs d) = Py.dict_get k d.
Proof.
  revert d. induction bs as [|b bs IH]; intros d Hk; simpl; [reflexivity|].
  simpl in Hk. rewrite IH by tauto. rewrite dict_get_set.
  destruct (String.eqb_spec b k); [tauto|reflexivity].
Qed.

Lemma set_all_get_new (bs : list string) (d : Py.dict (list Row)) (k : string) :
  In k bs -> Py.dict_get k (set_all bs d) = Some (f k).
Proof.
  revert d. induction bs as [|b bs IH]; intros d Hk; simpl; [destruct Hk|].
  destruct (in_dec string_dec k bs) as [Hin|Hnin]; [now apply IH|].
  rewrite set_all_get_old by assumption.
  destruct Hk as [->|]; [|contradiction].
  now rewrite dict_get_set, String.eqb_refl.
Qed.

Lemma set_all_Forall (P : string * list Row -> Prop) (bs : list string)
  (d : Py.dict (list Row)) :
  Forall P d -> (forall b, In b bs -> P (b, f b)) -> Forall P (set_all bs d).
Proof.
  revert d. induction bs as [|b bs IH]; intros d Hd Hf; simpl; [assumption|].
  apply IH.
  - apply dict_set_Forall; [assumption|]. apply Hf. now left.
  - intros b' Hb'. apply Hf. now right.
Qed.
End LoadFacts.

Section LoaderSpec.
Context {SV : SortValues}.

Lemma sorted_branch_Forall (b : string) (rs : list Row) :
  Forall (fun r => Branch r = b) (sort_values (select_branch b rs)).
Proof.
  eapply Permutation_Forall; [apply sort_values_perm|apply select_branch_Forall].
Qed.

Lemma group_by_branch_wf (rs : list Row) (d : Py.dict (list Row)) :
  index_wf d -> index_wf (group_by_branch rs d).
Proof.
  intros [Hnd Hall]. split.
  - now apply set_all_nodup.
  - apply set_all_Forall; [assumption|].
    intros b _. apply sorted_branch_Forall.
Qed.

Lemma group_by_branch_fresh (rs : list Row) :
  group_by_branch rs [] =
  map (fun b => (b, sort_values (select_branch b rs))) (unique (map Branch rs)).
Proof.
  unfold group_by_branch. rewrite set_all_fresh; [reflexivity|apply unique_nodup|].
  intros b _ [].
Qed.

Lemma group_by_branch_get (rs : list Row) (d : Py.dict (list Row)) (b : string) :
  In b (map Branch rs) ->
  Py.dict_get b (group_by_branch rs d) = Some (sort_values (select_branch b rs)).
Proof.
  intros Hb. unfold group_by_branch.
  apply (set_all_get_new (fun b => sort_values (select_branch b rs))).
  now apply unique_in.
Qed.

(** Entries of earlier loads stay in the index. *)
Lemma group_by_branch_keeps (rs : list Row) (d : Py.dict (list Row)) (k : string) :
  In k (Py.keys d) -> In k (Py.keys (group_by_branch rs d)).
Proof.
  intros Hk. unfold group_by_branch. apply set_all_keys. now right.
Qed.

Lemma group_by_branch_stale (rs : list Row) (d : Py.dict (list Row)) (k : string) :
  ~ In k (map Branch rs) ->
  Py.dict_get k (group_by_branch rs d) = Py.dict_get k d.
Proof.
  intros Hk. unfold group_by_branch. apply set_all_get_old.
  now rewrite unique_in.
Qed.

Lemma load_data_ok (df : DataFrame) (self : Analyser) :
  has_required_cols df = true ->
  load_data (Some df) self =
  ({| students_df := Some (add_branch_column df);
      branches := group_by_branch (rows (add_branch_column df)) (branches self) |},
   true).
Proof. intros H. unfold load_data. now rewrite H. Qed.

Lemma load_data_wf (uploaded : option DataFrame) (self : Analyser) :
  index_wf (branches self) -> index_wf (branches (fst (load_data uploaded self))).
Proof.
  intros Hwf. unfold load_data. destruct uploaded as [df|]; [|assumption].
  destruct (has_required_cols df); simpl; [|assumption].
  now apply group_by_branch_wf.
Qed.

Lemma fresh_index_records (rs : list Row) :
  Permutation (concat (Py.values (group_by_branch rs []))) rs.
Proof.
  rewrite group_by_branch_fresh. unfold Py.values. rewrite map_map. simpl.
  rewrite <- flat_map_concat_map.
  transitivity (flat_map (fun b => select_branch b rs) (unique (map Branch rs))).
  - induction (unique (map Branch rs)) as [|b bs IH]; simpl; [reflexivity|].
    apply Permutation_app; [symmetry; apply sort_values_perm|exact IH].
  - apply select_all_branches; [apply unique_nodup|].
    apply Forall_forall. intros r Hr. apply unique_in. now apply in_map.
Qed.
End LoaderSpec.

Lemma init_wf : index_wf (branches init).
Proof. split; simpl; constructor. Qed.

(** Every state of the analyser has a well-formed index. *)
Lemma reachable_wf {SV : SortValues} (self : Analyser) :
  reachable self -> index_wf (branches self).
Proof.
  induction 1 as [|uploaded self _ IH]; [apply init_wf|now apply load_data_wf].
Qed.

Lemma all_records_branch (self : Analyser) (r : Row) :
  index_wf (branches self) -> In r (all_records self) ->
  In (Branch r) (Py.keys (branches self)).
Proof.
  intros [_ Hall] Hr. unfold all_records, Py.values in Hr.
  apply in_concat in Hr. destruct Hr as (l & Hl & Hr).
  apply in_map_iff in Hl. destruct Hl as ([k v] & <- & Hkv).
  rewrite Forall_forall in Hall. specialize (Hall _ Hkv).
  rewrite Forall_forall in Hall. simpl in *. rewrite (Hall r Hr).
  unfold Py.keys. now apply (in_map fst) in Hkv.
Qed.

(** ** The statistics *)

Lemma stats_fold (names : list string) (group : list Row) (row : list nat) (total : nat) :
  fold_left
    (fun '(row, total) branch =>
       let count := branch_count branch group in
       (row ++ [count], total + count))
    names (row, total) =
  (row ++ map (fun b => branch_count b group) names,
   total + list_sum (map (fun b => branch_count b group) names)).
Proof.
  revert row total. induction names as [|b names IH]; intros row total; simpl.
  - now rewrite app_nil_r, Nat.add_0_r.
  - rewrite IH, <- app_assoc. simpl. f_equal. lia.
Qed.

Lemma branch_counts_sum (names : list string) (group : list Row) :
  NoDup names -> Forall (fun r => In (Branch r) names) group ->
  list_sum (map (fun b => branch_count b group) names) = List.length group.
Proof.
  intros Hnd Hall.
  rewrite <- (Permutation_length (select_all_branches names group Hnd Hall)).
  now rewrite length_flat_map.
Qed.

Lemma stats_row_expected (names : list string) (i : nat) (group : list Row) :
  NoDup names -> Forall (fun r => In (Branch r) names) group ->
  stats_row names i group = expected_row names i group.
Proof.
  intros Hnd Hall. unfold stats_row, expected_row.
  rewrite stats_fold. simpl. now rewrite branch_counts_sum.
Qed.

Lemma stats_rows_expected (names : list string) (l : list (nat * list Row)) :
  NoDup names ->
  Forall (fun ig => Forall (fun r => In (Branch r) names) (snd ig)) l ->
  flat_map
    (fun '(i, group) =>
       match group with
       | [] => []
       | _ :: _ => [stats_row names i group]
       end) l =
  map (fun ig => expected_row names (fst ig) (snd ig))
    (filter (fun ig => nonempty (snd ig)) l).
Proof.
  intros Hnd. induction 1 as [|[i g] l Hg Hl IH]; simpl; [reflexivity|].
  rewrite IH. destruct g as [|r g]; simpl; [reflexivity|].
  f_equal. now apply stats_row_expected.
Qed.

Lemma occupied_total (l : list (list Row)) (s : nat) :
  list_sum (map (fun ig : nat * list Row => List.length (snd ig))
              (filter (fun ig => nonempty (snd ig)) (combine (seq s (List.length l)) l))) =
  List.length (concat l).
Proof.
  revert s. induction l as [|g l IH]; intros s; simpl; [reflexivity|].
  rewrite length_app, <- (IH (S s)).
  destruct g; simpl; reflexivity.
Qed.

Lemma save_statistics_ok (self : Analyser) (groups : Groups) :
  index_wf (branches self) ->
  Permutation (concat groups) (all_records self) ->
  stats_ok self groups (save_statistics groups self).
Proof.
  intros Hwf Hperm. unfold stats_ok. cbv zeta.
  set (names := Py.sorted String.leb (Py.keys (branches self))).
  assert (Hnames : Permutation names (Py.keys (branches self)))
    by (symmetry; apply sorted_perm).
  assert (Hnd : NoDup names)
    by (eapply Permutation_NoDup; [symmetry; exact Hnames|apply Hwf]).
  assert (Hrows : stats_data (save_statistics groups self) =
                  map (fun ig => expected_row names (fst ig) (snd ig)) (occupied groups)).
  { unfold save_statistics. cbv zeta. simpl. fold names.
    apply stats_rows_expected; [assumption|].
    apply Forall_forall. intros [i g] Hig. simpl.
    apply Forall_forall. intros r Hr.
    apply (Permutation_in _ (Permutation_sym Hnames)).
    apply all_records_branch; [assumption|].
    apply (Permutation_in _ Hperm). apply in_concat.
    exists g. split; [|assumption].
    unfold Py.enumerate in Hig. now apply in_combine_r in Hig. }
  split; [reflexivity|]. split.
  { apply (sorted_sorted String.leb); [apply string_leb_total|apply string_leb_trans]. }
  split; [assumption|]. split; [assumption|]. rewrite Hrows. split.
  - apply Forall_forall. intros row Hrow.
    apply in_map_iff in Hrow. destruct Hrow as ([i g] & <- & Hig). simpl.
    apply branch_counts_sum; [assumption|].
    apply Forall_forall. intros r Hr.
    apply (Permutation_in _ (Permutation_sym Hnames)).
    apply all_records_branch; [assumption|].
    apply (Permutation_in _ Hperm). apply in_concat.
    exists g. split; [|assumption].
    unfold occupied in Hig. apply filter_In in Hig. destruct Hig as [Hig _].
    unfold Py.enumerate in Hig. now apply in_combine_r in Hig.
  - rewrite map_map. simpl. unfold occupied, Py.enumerate. apply occupied_total.
Qed.

(** ** Sample states *)

(** The analyser after one upload into a new instance. *)
Definition loaded (df : DataFrame) : Analyser :=
  fst (load_data (SV := stable_sort) (Some df) init).

(** The analyser after a second upload into the same instance. *)
Definition reloaded (df1 df2 : DataFrame) : Analyser :=
  fst (load_data (SV := stable_sort) (Some df2) (loaded df1)).

Lemma loaded_wf (df : DataFrame) : index_wf (branches (loaded df)).
Proof. apply load_data_wf, init_wf. Qed.

(** ** Both allocators on any index *)

Lemma allocators_conserve_index (n : nat) (self : Analyser) :
  1 <= n -> NoDup (Py.keys (branches self)) ->
  exists gb gu,
    branchwise_groups n self = Some gb /\ uniform_groups n self = Some gu /\
    List.length gb = n /\ List.length gu = n /\
    Permutation (concat gb) (all_records self) /\
    Permutation (concat gu) (all_records self).
Proof.
  intros Hn Hnd.
  destruct (branchwise_groups_spec n self Hn) as (gb & Hb & Hlb & _ & Hpb).
  destruct (uniform_run_spec n self Hn) as (gu & cur & Hu & _ & Hinv & Hpu).
  exists gb, gu. unfold uniform_groups. rewrite Hu.
  repeat split; auto.
  - apply Hinv.
  - rewrite Hpb. now apply visit_order_perm.
  - rewrite Hpu. apply fill_order_perm.
Qed.

(** ** The claims *)

(** X17. Conservation on a first upload: when a table with the required
    columns has been loaded into a new analyser, both allocators, for any
    group count of at least 2, return buckets whose contents together are
    exactly the input records (each with its derived branch code), none
    lost and none duplicated. *)
Theorem conservation {SV : SortValues} (df : DataFrame) (n : nat) :
  has_required_cols df = true -> 2 <= n ->
  let self := fst (load_data (Some df) init) in
  exists gb tb gu tu,
    create_and_save_branchwise_groups n self = Some (gb, tb) /\
    create_and_save_uniform_groups n self = Some (gu, tu) /\
    Permutation (concat gb) (map with_branch (rows df)) /\
    Permutation (concat gu) (map with_branch (rows df)).
Proof.
  intros Hcols Hn self.
  assert (Hwf : index_wf (branches self)) by apply load_data_wf, init_wf.
  destruct (allocators_conserve_index n self) as (gb & gu & Hb & Hu & _ & _ & Hpb & Hpu);
    [lia|apply Hwf|].
  assert (Hall : Permutation (all_records self) (map with_branch (rows df))).
  { unfold self. rewrite load_data_ok by assumption. unfold all_records. simpl.
    apply fresh_index_records. }
  exists gb, (save_statistics gb self), gu, (save_statistics gu self).
  unfold create_and_save_branchwise_groups, create_and_save_uniform_groups.
  rewrite Hb, Hu. repeat split.
  - now rewrite Hpb.
  - now rewrite Hpu.
Qed.

Lemma conservation_witness :
  has_required_cols ai_cb_frame = true /\ 2 <= 3 /\
  exists gb tb gu tu,
    create_and_save_branchwise_groups 3 (loaded ai_cb_frame) = Some (gb, tb) /\
    create_and_save_uniform_groups 3 (loaded ai_cb_frame) = Some (gu, tu) /\
    Permutation (concat gb) (map with_branch (rows ai_cb_frame)) /\
    Permutation (concat gu) (map with_branch (rows ai_cb_frame)).
Proof.
  split; [reflexivity|]. split; [lia|].
  apply (conservation (SV := stable_sort) ai_cb_frame 3); [reflexivity|lia].
Defined.

(** C1.  The code at an input on which the buckets are not the input
    records: after a first upload with five AI and three CB students and
    a second, accepted upload with one AI student only, both allocators
    deal out four records, the three CB students of the first upload
    among them, while the loaded dataset has one. *)
Theorem conservation_broken_by_reload :
  let self := reloaded ai_cb_frame second_frame in
  let input := map with_branch (rows second_frame) in
  exists gb tb gu tu,
    create_and_save_branchwise_groups 2 self = Some (gb, tb) /\
    create_and_save_uniform_groups 2 self = Some (gu, tu) /\
    map Roll input = ["1401AI09"] /\
    map (map Roll) gb = [["1401AI09"; "1401CB02"]; ["1401CB01"; "1401CB03"]] /\
    map (map Roll) gu = [["1401CB01"; "1401CB02"]; ["1401CB03"; "1401AI09"]] /\
    ~ Permutation (concat gb) input /\
    ~ Permutation (concat gu) input.
Proof.
  cbv zeta. eexists _, _, _, _.
  split; [vm_compute; reflexivity|]. split; [vm_compute; reflexivity|].
  split; [reflexivity|]. split; [reflexivity|]. split; [reflexivity|].
  split; intros H; apply Permutation_length in H; vm_compute in H; discriminate.
Qed.

(** C2, the example as the claim gives it: bucket 0 = AI 1, 3, 5 and
    CB 1, 3; bucket 1 = AI 2, 4 and CB 2.  After the five AI records the
    cursor stands at bucket 1, so the first CB record goes to bucket 1:
    the allocator returns other buckets, of sizes 4 and 4. *)
Lemma round_robin_example_refuted :
  branchwise_groups 2 (loaded ai_cb_frame) <>
    Some [[ai "1"; ai "3"; ai "5"; cb "1"; cb "3"]; [ai "2"; ai "4"; cb "2"]] /\
  option_map (map (@List.length Row)) (branchwise_groups 2 (loaded ai_cb_frame)) =
    Some [4; 4].
Proof. split; [vm_compute; discriminate|reflexivity]. Qed.

(** C2, amended.  The round-robin allocator visits the branch codes in
    ascending order and the records of each branch in index order; the
    [k]-th record visited (counting from 0 across all branches, without
    restarting at a branch boundary) is the [k / n]-th record of bucket
    [k mod n].  On five AI and three CB students with two groups, bucket 0
    receives AI 1, 3, 5 and CB 2, bucket 1 receives AI 2, 4 and CB 1, 3. *)
Theorem round_robin_deal (n : nat) (self : Analyser) :
  2 <= n ->
  (exists groups,
     branchwise_groups n self = Some groups /\
     List.length groups = n /\
     StronglySorted (fun a b => String.leb a b = true)
       (Py.sorted String.leb (Py.keys (branches self))) /\
     visit_order self =
       flat_map (students_of self) (Py.sorted String.leb (Py.keys (branches self))) /\
     forall k, k < List.length (visit_order self) ->
       nth_error (nth (k mod n) groups []) (k / n) = nth_error (visit_order self) k) /\
  branchwise_groups 2 (loaded ai_cb_frame) =
    Some [[ai "1"; ai "3"; ai "5"; cb "2"]; [ai "2"; ai "4"; cb "1"; cb "3"]].
Proof.
  intros Hn. split; [|reflexivity].
  destruct (branchwise_groups_spec n self) as (groups & Hrun & Hlen & Hnth & _); [lia|].
  exists groups. repeat split; auto.
  - apply (sorted_sorted String.leb); [apply string_leb_total|apply string_leb_trans].
  - intros k Hk.
    rewrite Hnth by (apply Nat.mod_upper_bound; lia).
    rewrite pick_nth_error by lia. f_equal.
    rewrite (Nat.div_mod k n) at 3 by lia. lia.
Qed.

Lemma round_robin_deal_witness :
  2 <= 2 /\
  exists groups,
    branchwise_groups 2 (loaded ai_cb_frame) = Some groups /\
    forall k, k < List.length (visit_order (loaded ai_cb_frame)) ->
      nth_error (nth (k mod 2) groups []) (k / 2) =
      nth_error (visit_order (loaded ai_cb_frame)) k.
Proof.
  split; [lia|].
  destruct (round_robin_deal 2 (loaded ai_cb_frame)) as [(groups & Hrun & _ & _ & _ & Hk) _];
    [lia|].
  exists groups. split; assumption.
Defined.

(** C3. After a size-balanced run with at least 2 groups, every bucket
    except possibly the last holds at most ceil(total / groups) records. *)
Theorem uniform_bound_except_last (n : nat) (self : Analyser) :
  2 <= n ->
  exists groups table,
    create_and_save_uniform_groups n self = Some (groups, table) /\
    List.length groups = n /\
    forall i, i < n - 1 ->
      List.length (nth i groups []) <= Py.ceil_div (total_students self) n.
Proof.
  intros Hn.
  destruct (uniform_run_spec n self) as (groups & cur & Hrun & _ & Hinv & Hperm); [lia|].
  exists groups, (save_statistics groups self).
  unfold create_and_save_uniform_groups, uniform_groups. rewrite Hrun.
  split; [reflexivity|]. split; [apply Hinv|].
  intros i _. eapply uniform_inv_bound; [| |exact Hinv|reflexivity]; [lia|].
  rewrite (Permutation_length Hperm), (Permutation_length (fill_order_perm self)),
    all_records_length.
  apply ceil_div_covers. lia.
Qed.

Lemma uniform_bound_except_last_witness :
  2 <= 3 /\
  exists groups table,
    create_and_save_uniform_groups 3 (loaded ai_cb_frame) = Some (groups, table) /\
    List.length groups = 3 /\
    forall i, i < 3 - 1 ->
      List.length (nth i groups []) <=
      Py.ceil_div (total_students (loaded ai_cb_frame)) 3.
Proof.
  split; [lia|]. apply (uniform_bound_except_last 3 (loaded ai_cb_frame)). lia.
Defined.

(** C10. In a size-balanced run with at least 2 groups no bucket, the
    last one included, holds more than ceil(total / groups) records.  The
    cursor leaves a bucket only when it holds exactly the target, so every
    bucket before the final cursor holds exactly the target, and the last
    bucket, when it received anything, holds the total minus (groups - 1)
    times the target. *)
Theorem uniform_never_overflows (n : nat) (self : Analyser) :
  2 <= n ->
  let target := Py.ceil_div (total_students self) n in
  exists groups cur,
    uniform_run n self = Some (groups, cur) /\
    uniform_groups n self = Some groups /\
    List.length groups = n /\
    Forall (fun g => List.length g <= target) groups /\
    (forall i, i < cur -> List.length (nth i groups []) = target) /\
    (nth (n - 1) groups [] <> [] ->
     List.length (nth (n - 1) groups []) + (n - 1) * target = total_students self).
Proof.
  intros Hn target.
  destruct (uniform_run_spec n self) as (groups & cur & Hrun & _ & Hinv & Hperm); [lia|].
  fold target in Hinv.
  assert (Htot : List.length (concat groups) = total_students self).
  { now rewrite (Permutation_length Hperm), (Permutation_length (fill_order_perm self)),
      all_records_length. }
  exists groups, cur. unfold uniform_groups. rewrite Hrun.
  split; [reflexivity|]. split; [reflexivity|].
  pose proof Hinv as (Hlen & Hcur & Hfull & Hempty & Hle & Hsum).
  split; [assumption|]. split; [|split; [assumption|]].
  - apply Forall_forall. intros g Hg.
    destruct (In_nth _ _ [] Hg) as (i & _ & <-).
    eapply uniform_inv_bound; [| |exact Hinv|exact Htot]; [lia|].
    apply ceil_div_covers. lia.
  - intros Hlast.
    destruct (Nat.eq_dec cur (n - 1)) as [->|Hne].
    + lia.
    + exfalso. apply Hlast, Hempty. lia.
Qed.

Lemma uniform_never_overflows_witness :
  2 <= 2 /\
  exists groups cur,
    uniform_run 2 (loaded ai_cb_frame) = Some (groups, cur) /\
    Forall (fun g => List.length g <=
                     Py.ceil_div (total_students (loaded ai_cb_frame)) 2) groups.
Proof.
  split; [lia|].
  destruct (uniform_never_overflows 2 (loaded ai_cb_frame)) as (g & c & H1 & _ & _ & H2 & _);
    [lia|].
  exists g, c. split; assumption.
Defined.

(** *** Round-robin spread *)

Lemma students_of_Forall (self : Analyser) (b : string) :
  index_wf (branches self) -> Forall (fun r => Branch r = b) (students_of self b).
Proof.
  intros [_ Hall]. unfold students_of.
  destruct (Py.dict_get b (branches self)) as [l|] eqn:Hget; [|constructor].
  apply dict_get_some in Hget. rewrite Forall_forall in Hall.
  exact (Hall _ Hget).
Qed.

Lemma other_branches_Forall (self : Analyser) (c : string) (bs : list string) :
  index_wf (branches self) -> ~ In c bs ->
  Forall (fun r => Branch r <> c) (flat_map (students_of self) bs).
Proof.
  intros Hwf Hc. apply Forall_flat_map, Forall_forall. intros b Hb.
  eapply Forall_impl; [|apply students_of_Forall; assumption].
  simpl. intros r -> ->. contradiction.
Qed.

(** The records of one branch are visited in one block. *)
Lemma visit_order_block (self : Analyser) (c : string) (students : list Row) :
  index_wf (branches self) ->
  Py.dict_get c (branches self) = Some students ->
  exists pre post,
    visit_order self = pre ++ students ++ post /\
    Forall (fun r => Branch r <> c) pre /\
    Forall (fun r => Branch r <> c) post.
Proof.
  intros Hwf Hget.
  assert (Hin : In c (Py.sorted String.leb (Py.keys (branches self)))).
  { apply sorted_keys_in. apply dict_get_some in Hget.
    now apply (in_map fst) in Hget. }
  assert (Hnd : NoDup (Py.sorted String.leb (Py.keys (branches self)))).
  { eapply Permutation_NoDup; [apply sorted_perm|apply Hwf]. }
  unfold visit_order.
  destruct (in_split _ _ Hin) as (n1 & n2 & Heq). rewrite Heq in *.
  apply NoDup_remove_2 in Hnd. rewrite in_app_iff in Hnd.
  exists (flat_map (students_of self) n1), (flat_map (students_of self) n2).
  rewrite flat_map_app. simpl. unfold students_of at 2. rewrite Hget.
  repeat split; try reflexivity; apply other_branches_Forall; tauto.
Qed.

Lemma branch_count_block (n d : nat) (c : string) (pre students post : list Row) :
  1 <= n -> d < n ->
  Forall (fun r => Branch r <> c) pre ->
  Forall (fun r => Branch r = c) students ->
  Forall (fun r => Branch r <> c) post ->
  exists d', d' < n /\
    branch_count c (pick n d (pre ++ students ++ post)) =
    List.length (pick n d' students).
Proof.
  intros Hn Hd Hpre Hmid Hpost.
  destruct (pick_app n pre (students ++ post) Hn d Hd) as (d1 & Hd1 & ->).
  destruct (pick_app n students post Hn d1 Hd1) as (d2 & Hd2 & ->).
  exists d1. split; [assumption|].
  unfold branch_count, select_branch. rewrite !filter_app, !length_app.
  fold (select_branch c (pick n d pre)) (select_branch c (pick n d1 students))
       (select_branch c (pick n d2 post)).
  rewrite (select_branch_none c (pick n d pre)) by now apply pick_Forall.
  rewrite (select_branch_none c (pick n d2 post)) by now apply pick_Forall.
  rewrite (select_branch_all c (pick n d1 students)) by now apply pick_Forall.
  simpl. lia.
Qed.

(** C8. For every branch of the index with at least as many records as
    there are groups, after a round-robin run the numbers of that
    branch's records in any two buckets differ by at most 1. *)
Theorem round_robin_spread (n : nat) (self : Analyser) (c : string)
  (students : list Row) :
  2 <= n -> index_wf (branches self) ->
  Py.dict_get c (branches self) = Some students ->
  n <= List.length students ->
  exists groups table,
    create_and_save_branchwise_groups n self = Some (groups, table) /\
    forall i j, i < n -> j < n ->
      branch_count c (nth i groups []) <= branch_count c (nth j groups []) + 1.
Proof.
  intros Hn Hwf Hget _.
  destruct (branchwise_groups_spec n self) as (groups & Hrun & _ & Hnth & _); [lia|].
  exists groups, (save_statistics groups self).
  unfold create_and_save_branchwise_groups. rewrite Hrun.
  split; [reflexivity|]. intros i j Hi Hj.
  rewrite (Hnth i Hi), (Hnth j Hj).
  destruct (visit_order_block self c students Hwf Hget) as (pre & post & -> & Hpre & Hpost).
  assert (Hmid : Forall (fun r => Branch r = c) students).
  { pose proof (students_of_Forall self c Hwf) as H.
    unfold students_of in H. now rewrite Hget in H. }
  destruct (branch_count_block n i c pre students post) as (di & Hdi & ->); auto; [lia|].
  destruct (branch_count_block n j c pre students post) as (dj & Hdj & ->); auto; [lia|].
  pose proof (pick_length n students ltac:(lia) di Hdi).
  pose proof (pick_length n students ltac:(lia) dj Hdj).
  nia.
Qed.

Lemma round_robin_spread_witness :
  2 <= 2 /\ index_wf (branches (loaded ai_cb_frame)) /\
  Py.dict_get "AI" (branches (loaded ai_cb_frame)) =
    Some [ai "1"; ai "2"; ai "3"; ai "4"; ai "5"] /\
  2 <= List.length [ai "1"; ai "2"; ai "3"; ai "4"; ai "5"] /\
  exists groups table,
    create_and_save_branchwise_groups 2 (loaded ai_cb_frame) = Some (groups, table) /\
    forall i j, i < 2 -> j < 2 ->
      branch_count "AI" (nth i groups []) <= branch_count "AI" (nth j groups []) + 1.
Proof.
  split; [lia|]. split; [apply loaded_wf|]. split; [reflexivity|].
  split; [simpl; lia|].
  apply (round_robin_spread 2 (loaded ai_cb_frame) "AI"
           [ai "1"; ai "2"; ai "3"; ai "4"; ai "5"]);
    [lia|apply loaded_wf|reflexivity|simpl; lia].
Defined.

(** C9. For the buckets of either allocator the statistics table has,
    under the header Group, the branch codes in ascending order, Total,
    one row per non-empty bucket, in bucket order; the row of bucket [i]
    is labelled G(i+1), counts the bucket's records of each branch in
    header order (0 for a branch absent from it) and totals the bucket's
    size; in every row the counts add up to the total, and the totals add
    up to the number of records allocated, which is the number of records
    in the index. *)
Theorem statistics_consistent (n : nat) (self : Analyser) :
  2 <= n -> index_wf (branches self) ->
  (exists groups table,
     create_and_save_branchwise_groups n self = Some (groups, table) /\
     stats_ok self groups table /\
     List.length (concat groups) = total_students self) /\
  (exists groups table,
     create_and_save_uniform_groups n self = Some (groups, table) /\
     stats_ok self groups table /\
     List.length (concat groups) = total_students self).
Proof.
  intros Hn Hwf.
  destruct (allocators_conserve_index n self) as (gb & gu & Hb & Hu & _ & _ & Hpb & Hpu);
    [lia|apply Hwf|].
  unfold create_and_save_branchwise_groups, create_and_save_uniform_groups.
  rewrite Hb, Hu. split.
  - exists gb, (save_statistics gb self). split; [reflexivity|]. split.
    + now apply save_statistics_ok.
    + now rewrite (Permutation_length Hpb), all_records_length.
  - exists gu, (save_statistics gu self). split; [reflexivity|]. split.
    + now apply save_statistics_ok.
    + now rewrite (Permutation_length Hpu), all_records_length.
Qed.

Lemma statistics_consistent_witness :
  2 <= 3 /\ index_wf (branches (loaded ai_cb_frame)) /\
  (exists groups table,
     create_and_save_branchwise_groups 3 (loaded ai_cb_frame) = Some (groups, table) /\
     stats_ok (loaded ai_cb_frame) groups table /\
     List.length (concat groups) = total_students (loaded ai_cb_frame)) /\
  (exists groups table,
     create_and_save_uniform_groups 3 (loaded ai_cb_frame) = Some (groups, table) /\
     stats_ok (loaded ai_cb_frame) groups table /\
     List.length (concat groups) = total_students (loaded ai_cb_frame)).
Proof.
  split; [lia|]. split; [apply loaded_wf|].
  apply (statistics_consistent 3 (loaded ai_cb_frame)); [lia|apply loaded_wf].
Defined.

(** *** Order of the size-balanced allocator *)

(** C4, as the claim states it: among branches of equal size the smaller
    code is processed first.  With CB listed before AI in the upload, one
    student each, the allocator processes CB first. *)
Lemma tie_by_code_refuted :
  ties_by_code (sorted_branches (loaded tie_frame)) = false /\
  map fst (sorted_branches (loaded tie_frame)) = ["CB"; "AI"] /\
  option_map (map (map Branch)) (uniform_groups 2 (loaded tie_frame)) =
    Some [["CB"]; ["AI"]].
Proof. repeat split. Qed.

(** C4, amended.  The size-balanced allocator processes the branches of
    the index, each once, by record count descending; branches with the
    same record count are processed in the order in which they entered
    the index, whatever their codes. *)
Theorem uniform_processing_order (n : nat) (self : Analyser) :
  uniform_run n self =
    match target_size n self with
    | Some target =>
        Py.for_each (uniform_student n target)
          (flat_map snd (sorted_branches self)) (empty_groups n, 0)
    | None => None
    end /\
  Permutation (sorted_branches self) (Py.items (branches self)) /\
  StronglySorted (fun x y => by_size_desc x y = true) (sorted_branches self) /\
  forall k,
    filter (fun x => List.length (snd x) =? k) (sorted_branches self) =
    filter (fun x => List.length (snd x) =? k) (Py.items (branches self)).
Proof.
  repeat split.
  - unfold uniform_run. cbv zeta. destruct (target_size n self); [|reflexivity].
    rewrite <- for_each_nested. reflexivity.
  - symmetry. apply sorted_perm.
  - apply (sorted_sorted by_size_desc); unfold by_size_desc.
    + intros a b. destruct (Nat.le_ge_cases (List.length (snd a)) (List.length (snd b)));
        [right|left]; now apply Nat.leb_le.
    + intros a b c Hab Hbc. apply Nat.leb_le in Hab, Hbc. apply Nat.leb_le. lia.
  - intros k. apply sorted_stable. unfold by_size_desc.
    intros a b Ha Hb. apply Nat.eqb_eq in Ha, Hb. apply Nat.leb_le. lia.
Qed.

(** *** The index after a load *)




(** C6, as the claim states it: a load that fails for a missing column
    leaves the stored dataset as it was.  The table is stored before the
    columns are checked, so the rejected table replaces the dataset. *)
Lemma failed_load_replaces_dataset :
  has_required_cols no_email_frame = false /\
  let before := loaded ai_cb_frame in
  let after := load_data (SV := stable_sort) (Some no_email_frame) before in
  snd after = false /\
  students_df (fst after) = Some no_email_frame /\
  students_df (fst after) <> students_df before /\
  fst after <> before.
Proof.
  split; [reflexivity|]. cbv zeta. split; [reflexivity|]. split; [reflexivity|].
  split; vm_compute; discriminate.
Qed.

(** C6, amended.  When a required column (Roll, Name or Email) is
    missing, the load reports failure by returning False and leaves the
    branch index exactly as it was; the stored dataset is the table just
    read. *)
Theorem missing_field_load {SV : SortValues} (df : DataFrame) (self : Analyser) :
  (exists col, In col required_cols /\ ~ In col (columns df)) ->
  load_data (Some df) self =
    ({| students_df := Some df; branches := branches self |}, false).
Proof.
  intros (col & Hreq & Hmiss). unfold load_data.
  destruct (has_required_cols df) eqn:Hcols; [|reflexivity].
  exfalso. apply Hmiss. unfold has_required_cols in Hcols.
  rewrite forallb_forall in Hcols. specialize (Hcols col Hreq).
  apply existsb_exists in Hcols. destruct Hcols as (x & Hx & Heq).
  apply String.eqb_eq in Heq. now subst.
Qed.

Lemma missing_field_load_witness :
  (exists col, In col required_cols /\ ~ In col (columns no_email_frame)) /\
  load_data (SV := stable_sort) (Some no_email_frame) (loaded ai_cb_frame) =
    ({| students_df := Some no_email_frame;
        branches := branches (loaded ai_cb_frame) |}, false).
Proof.
  assert (H : exists col, In col required_cols /\ ~ In col (columns no_email_frame)).
  { exists "Email". split; [simpl; tauto|].
    simpl. intros [H|[H|[]]]; discriminate. }
  split; [exact H|].
  apply (missing_field_load (SV := stable_sort) no_email_frame (loaded ai_cb_frame) H).
Defined.

(** C7.  The code at an input on which the index is not rebuilt: after a
    first upload with AI and CB students and a second, successful upload
    with one AI student only, the dataset is the second table, but the
    index still holds branch CB with the three CB students of the first
    upload, and the allocators deal them out. *)
Theorem reload_keeps_stale_branch :
  let self := reloaded ai_cb_frame second_frame in
  snd (load_data (SV := stable_sort) (Some second_frame) (loaded ai_cb_frame)) = true /\
  students_df self = Some (add_branch_column second_frame) /\
  unique (map Branch (map with_branch (rows second_frame))) = ["AI"] /\
  Py.keys (branches self) = ["AI"; "CB"] /\
  Py.dict_get "CB" (branches self) = Some [cb "1"; cb "2"; cb "3"] /\
  total_students self = 4 /\
  option_map (map (map Roll)) (uniform_groups 2 self) =
    Some [["1401CB01"; "1401CB02"]; ["1401CB03"; "1401AI09"]].
Proof. cbv zeta. repeat split; vm_compute; reflexivity. Qed.

(** * Further properties of the code *)

(** ** Sizes of the round-robin buckets *)

Lemma visit_order_length (self : Analyser) :
  NoDup (Py.keys (branches self)) ->
  List.length (visit_order self) = total_students self.
Proof.
  intros Hnd.
  now rewrite (Permutation_length (visit_order_perm self Hnd)), all_records_length.
Qed.

(** X1. The round-robin allocator hands bucket [i] one record in every
    [n], starting with the [i]-th: its size is the number of positions
    below the total that are congruent to [i], so the sizes never grow
    with the bucket number, differ by at most one, and no bucket stays
    empty once there are at least [n] records. *)
Theorem round_robin_sizes (n : nat) (self : Analyser) :
  1 <= n -> NoDup (Py.keys (branches self)) ->
  exists groups,
    branchwise_groups n self = Some groups /\
    (forall i, i < n ->
       List.length (nth i groups []) = (total_students self + (n - 1 - i)) / n) /\
    (forall i j, i <= j -> j < n ->
       List.length (nth j groups []) <= List.length (nth i groups []) <=
       List.length (nth j groups []) + 1) /\
    (n <= total_students self -> forall i, i < n -> nth i groups [] <> []).
Proof.
  intros Hn Hnd.
  destruct (branchwise_groups_spec n self Hn) as (groups & Hrun & _ & Hnth & _).
  exists groups. split; [assumption|].
  assert (Hsize : forall i, i < n ->
            total_students self <= i + n * List.length (nth i groups []) <
            total_students self + n).
  { intros i Hi. rewrite (Hnth i Hi), <- (visit_order_length self Hnd).
    now apply pick_length. }
  repeat split.
  - intros i Hi. specialize (Hsize i Hi).
    apply (Nat.div_unique _ _ _
             (total_students self + (n - 1 - i) - n * List.length (nth i groups [])));
      lia.
  - pose proof (Hsize i ltac:(lia)). pose proof (Hsize j ltac:(lia)). nia.
  - pose proof (Hsize i ltac:(lia)). pose proof (Hsize j ltac:(lia)). nia.
  - intros Htot i Hi Hnil. specialize (Hsize i Hi). rewrite Hnil in Hsize.
    simpl in Hsize. lia.
Qed.

Lemma round_robin_sizes_witness :
  1 <= 3 /\ NoDup (Py.keys (branches (loaded ai_cb_frame))) /\
  exists groups,
    branchwise_groups 3 (loaded ai_cb_frame) = Some groups /\
    forall i, i < 3 ->
      List.length (nth i groups []) =
      (total_students (loaded ai_cb_frame) + (3 - 1 - i)) / 3.
Proof.
  split; [lia|]. split; [apply loaded_wf|].
  destruct (round_robin_sizes 3 (loaded ai_cb_frame) ltac:(lia)
              (proj1 (loaded_wf ai_cb_frame))) as (groups & Hrun & Hsize & _).
  exists groups. split; assumption.
Defined.

(** ** The size-balanced buckets as consecutive chunks *)

Lemma concat_nil_nth {A : Type} (ls : list (list A)) :
  (forall j, nth j ls [] = []) -> concat ls = [].
Proof.
  induction ls as [|l ls IH]; intros H; simpl; [reflexivity|].
  rewrite (H 0 : l = []), IH; [reflexivity|].
  intros j. exact (H (S j)).
Qed.

Lemma append_at_concat_tail {A : Type} (i : nat) (x : A) (ls ls' : list (list A)) :
  Py.append_at i x ls = Some ls' ->
  (forall j, i < j -> nth j ls [] = []) ->
  concat ls' = concat ls ++ [x].
Proof.
  revert i ls'. induction ls as [|l ls IH]; intros i ls' H Hnil; simpl in *; [discriminate|].
  destruct i as [|i].
  - injection H as <-. simpl.
    rewrite (concat_nil_nth ls), !app_nil_r; [reflexivity|].
    intros j. apply (Hnil (S j)). lia.
  - destruct (Py.append_at i x ls) eqn:E; [|discriminate].
    injection H as <-. simpl. rewrite (IH _ _ E), app_assoc; [reflexivity|].
    intros j Hj. apply (Hnil (S j)). lia.
Qed.

Lemma uniform_student_order (n target : nat) (groups groups' : Groups)
  (cur cur' : nat) (x : Row) :
  uniform_student n target (groups, cur) x = Some (groups', cur') ->
  (forall j, cur < j -> nth j groups [] = []) ->
  concat groups' = concat groups ++ [x].
Proof.
  unfold uniform_student. intros H Hnil.
  destruct (nth_error groups cur) as [g|]; [|discriminate].
  destruct ((target <=? List.length g) && (cur <? n - 1)).
  - destruct (Py.append_at (cur + 1) x groups) eqn:E; [|discriminate].
    injection H as <- <-. apply (append_at_concat_tail _ _ _ _ E).
    intros j Hj. apply Hnil. lia.
  - destruct (Py.append_at cur x groups) eqn:E; [|discriminate].
    injection H as <- <-. apply (append_at_concat_tail _ _ _ _ E).
    intros j Hj. apply Hnil. lia.
Qed.

Lemma uniform_students_order (n target : nat) (l : list Row) :
  (l <> [] -> 1 <= target) ->
  forall st st', uniform_inv n target st ->
  Py.for_each (uniform_student n target) l st = Some st' ->
  concat (fst st') = concat (fst st) ++ l.
Proof.
  intros Ht. induction l as [|x l IH]; intros st st' Hinv Hrun; simpl in Hrun.
  - injection Hrun as <-. now rewrite app_nil_r.
  - assert (H1 : 1 <= target) by (apply Ht; discriminate).
    destruct (uniform_student_step n target st x H1 Hinv) as (st1 & Hs & Hi1 & _).
    rewrite Hs in Hrun.
    rewrite (IH (fun _ => H1) st1 st' Hi1 Hrun).
    destruct st as [groups cur], st1 as [groups1 cur1]. simpl.
    rewrite (uniform_student_order _ _ _ _ _ _ _ Hs), <- app_assoc; [reflexivity|].
    apply Hinv.
Qed.

Lemma fill_order_length (self : Analyser) :
  List.length (fill_order self) = total_students self.
Proof.
  now rewrite (Permutation_length (fill_order_perm self)), all_records_length.
Qed.

Lemma uniform_run_order (n : nat) (self : Analyser) (groups : Groups) (cur : nat) :
  1 <= n -> uniform_run n self = Some (groups, cur) ->
  concat groups = fill_order self.
Proof.
  intros Hn. unfold uniform_run, target_size. cbv zeta.
  destruct (Nat.eqb_spec n 0) as [|_]; [lia|].
  set (t := Py.ceil_div (total_students self) n).
  assert (Hflat : Py.for_each (uniform_branch n t) (sorted_branches self) (empty_groups n, 0)
                  = Py.for_each (uniform_student n t) (fill_order self) (empty_groups n, 0)).
  { unfold fill_order. rewrite <- for_each_nested. reflexivity. }
  rewrite Hflat. intros Hrun.
  apply uniform_students_order in Hrun.
  - simpl in Hrun. now rewrite empty_groups_concat in Hrun.
  - intros Hne. apply ceil_div_pos; [|assumption].
    rewrite <- fill_order_length. destruct (fill_order self); [congruence|simpl; lia].
  - now apply uniform_inv_init.
Qed.

(** Skipping whole buckets of [t] records in the concatenation. *)
Lemma concat_skip_full {A : Type} (t : nat) (ls : list (list A)) (i : nat) :
  (forall j, j < i -> List.length (nth j ls []) = t) ->
  skipn (i * t) (concat ls) = concat (skipn i ls).
Proof.
  revert ls. induction i as [|i IH]; intros ls H; [reflexivity|].
  destruct ls as [|l ls].
  - simpl. now rewrite skipn_nil.
  - simpl. pose proof (H 0 ltac:(lia)) as Hl. simpl in Hl.
    rewrite skipn_app, Hl.
    replace (t + i * t - t) with (i * t) by lia.
    rewrite skipn_all2 by lia. simpl.
    apply IH. intros j Hj. apply (H (S j)). lia.
Qed.

Lemma concat_skipn_head {A : Type} (ls : list (list A)) (i : nat) :
  concat (skipn i ls) = nth i ls [] ++ concat (skipn (S i) ls).
Proof.
  revert i. induction ls as [|l ls IH]; intros i.
  - rewrite !skipn_nil. now destruct i.
  - destruct i as [|i]; [reflexivity|]. simpl. apply IH.
Qed.

(** X2. The size-balanced allocator cuts the fill order (the branches by
    size descending, the records of each in index order) into consecutive
    runs: the buckets in order make up the fill order again, and bucket
    [i] is exactly records [i * target] up to [(i + 1) * target] of it,
    where [target] is ceil(total / groups). *)
Theorem uniform_consecutive_chunks (n : nat) (self : Analyser) :
  1 <= n ->
  let target := Py.ceil_div (total_students self) n in
  exists groups,
    uniform_groups n self = Some groups /\
    concat groups = fill_order self /\
    forall i, i < n ->
      nth i groups [] = firstn target (skipn (i * target) (fill_order self)).
Proof.
  intros Hn target.
  destruct (uniform_run_spec n self Hn) as (groups & cur & Hrun & _ & Hinv & _).
  fold target in Hinv.
  pose proof (uniform_run_order n self groups cur Hn Hrun) as Hord.
  exists groups. unfold uniform_groups. rewrite Hrun.
  split; [reflexivity|]. split; [assumption|].
  assert (Hbound : forall i, List.length (nth i groups []) <= target).
  { eapply uniform_inv_bound; [exact Hn| |exact Hinv|reflexivity].
    rewrite Hord, fill_order_length. now apply ceil_div_covers. }
  destruct Hinv as (Hlen & Hcur & Hfull & Hempty & _ & Hsum).
  intros i Hi. rewrite <- Hord.
  destruct (Nat.le_gt_cases i cur) as [Hic|Hic].
  - rewrite concat_skip_full by (intros j Hj; apply Hfull; lia).
    rewrite concat_skipn_head.
    destruct (Nat.eq_dec i cur) as [->|Hne].
    + rewrite (concat_nil_nth (skipn (S cur) groups)), app_nil_r.
      * symmetry. apply firstn_all2, Hbound.
      * intros j. rewrite nth_skipn. apply Hempty. lia.
    + rewrite firstn_app, (Hfull i) by lia.
      rewrite Nat.sub_diag, firstn_O, app_nil_r.
      symmetry. apply firstn_all2. rewrite Hfull; lia.
  - rewrite (Hempty i Hic), skipn_all2; [now rewrite firstn_nil|].
    rewrite Hsum. specialize (Hbound cur). nia.
Qed.

Lemma uniform_consecutive_chunks_witness :
  1 <= 3 /\
  exists groups,
    uniform_groups 3 (loaded ai_cb_frame) = Some groups /\
    concat groups = fill_order (loaded ai_cb_frame) /\
    forall i, i < 3 ->
      nth i groups [] =
      firstn (Py.ceil_div (total_students (loaded ai_cb_frame)) 3)
        (skipn (i * Py.ceil_div (total_students (loaded ai_cb_frame)) 3)
           (fill_order (loaded ai_cb_frame))).
Proof.
  split; [lia|].
  exact (uniform_consecutive_chunks 3 (loaded ai_cb_frame) ltac:(lia)).
Defined.

(** ** Edge cases of the group count *)

Lemma pick_every (A : Type) (l : list A) : pick 1 0 l = l.
Proof. induction l as [|x l IH]; simpl; [reflexivity|now rewrite IH]. Qed.

Lemma rr_no_groups (l : list Row) :
  Py.for_each (rr_student 0) l (empty_groups 0, 0) =
  match l with [] => Some ([], 0) | _ :: _ => None end.
Proof. destruct l; reflexivity. Qed.

(** X3. With a group count of 0 the size-balanced allocator always
    raises (the division by zero of the target size); the round-robin
    allocator raises as soon as the index holds a record (the first
    append finds no bucket) and returns no bucket at all, with an empty
    statistics table, when the index holds none. *)
Theorem zero_groups (self : Analyser) :
  create_and_save_uniform_groups 0 self = None /\
  (visit_order self <> [] -> create_and_save_branchwise_groups 0 self = None) /\
  (visit_order self = [] ->
   exists table,
     create_and_save_branchwise_groups 0 self = Some ([], table) /\
     stats_data table = []).
Proof.
  split; [reflexivity|].
  unfold create_and_save_branchwise_groups, branchwise_groups. cbv zeta.
  rewrite rr_loop_flat, rr_no_groups. split.
  - intros Hne. destruct (visit_order self); [congruence|reflexivity].
  - intros ->. eexists. split; reflexivity.
Qed.

Lemma zero_groups_witness :
  visit_order (loaded ai_cb_frame) <> [] /\
  create_and_save_branchwise_groups 0 (loaded ai_cb_frame) = None /\
  visit_order init = [] /\
  exists table,
    create_and_save_branchwise_groups 0 init = Some ([], table) /\
    stats_data table = [].
Proof.
  assert (H1 : visit_order (loaded ai_cb_frame) <> []) by (vm_compute; discriminate).
  assert (H2 : visit_order init = []) by reflexivity.
  split; [exact H1|]. split.
  - exact (proj1 (proj2 (zero_groups (loaded ai_cb_frame))) H1).
  - split; [exact H2|]. exact (proj2 (proj2 (zero_groups init)) H2).
Defined.

(** X4. With a single group each allocator puts every record into that
    one bucket, in its own visiting order: branch codes ascending for the
    round-robin allocator, branch sizes descending for the size-balanced
    one. *)
Theorem single_group (self : Analyser) :
  branchwise_groups 1 self = Some [visit_order self] /\
  uniform_groups 1 self = Some [fill_order self].
Proof.
  split.
  - destruct (branchwise_groups_spec 1 self) as (groups & Hrun & Hlen & Hnth & _); [lia|].
    rewrite Hrun. f_equal.
    destruct groups as [|g [|g' groups]]; try discriminate.
    f_equal. specialize (Hnth 0 ltac:(lia)). simpl in Hnth.
    now rewrite pick_every in Hnth.
  - destruct (uniform_run_spec 1 self) as (groups & cur & Hrun & _ & Hinv & _); [lia|].
    pose proof (uniform_run_order 1 self groups cur ltac:(lia) Hrun) as Hord.
    unfold uniform_groups. rewrite Hrun. f_equal.
    destruct Hinv as (Hlen & _).
    destruct groups as [|g [|g' groups]]; try discriminate.
    simpl in Hord. rewrite app_nil_r in Hord. now subst.
Qed.

(** ** Allocation on an index without records *)

Lemma all_nil_repeat {A : Type} (ls : list (list A)) :
  concat ls = [] -> ls = repeat [] (List.length ls).
Proof.
  induction ls as [|l ls IH]; simpl; intros H; [reflexivity|].
  apply app_eq_nil in H. destruct H as [-> H]. f_equal. now apply IH.
Qed.

Lemma no_rows_for_empty_groups (names : list string) (n s : nat) :
  flat_map
    (fun '(i, group) =>
       match group with
       | [] => []
       | _ :: _ => [stats_row names i group]
       end)
    (combine (seq s n) (repeat (@nil Row) n)) = [].
Proof.
  revert s. induction n as [|n IH]; intros s; simpl; [reflexivity|apply IH].
Qed.

(** X5. When the index holds no record (in particular before any
    upload), both allocators return the requested number of buckets, all
    empty, and a statistics table without rows. *)
Theorem allocation_without_records (n : nat) (self : Analyser) :
  1 <= n -> NoDup (Py.keys (branches self)) -> total_students self = 0 ->
  exists table,
    stats_data table = [] /\
    create_and_save_branchwise_groups n self = Some (empty_groups n, table) /\
    create_and_save_uniform_groups n self = Some (empty_groups n, table).
Proof.
  intros Hn Hnd Htot.
  destruct (allocators_conserve_index n self Hn Hnd)
    as (gb & gu & Hb & Hu & Hlb & Hlu & Hpb & Hpu).
  assert (Hnone : all_records self = []).
  { apply length_zero_iff_nil. now rewrite all_records_length. }
  rewrite Hnone in Hpb, Hpu.
  apply Permutation_sym, Permutation_nil in Hpb.
  apply Permutation_sym, Permutation_nil in Hpu.
  apply all_nil_repeat in Hpb, Hpu. rewrite Hlb in Hpb. rewrite Hlu in Hpu.
  fold (empty_groups n) in Hpb, Hpu. subst gb gu.
  exists (save_statistics (empty_groups n) self).
  unfold create_and_save_branchwise_groups, create_and_save_uniform_groups.
  rewrite Hb, Hu. repeat split.
  unfold save_statistics, Py.enumerate. simpl.
  rewrite empty_groups_length. apply no_rows_for_empty_groups.
Qed.

Lemma allocation_without_records_witness :
  1 <= 4 /\ NoDup (Py.keys (branches init)) /\ total_students init = 0 /\
  exists table,
    stats_data table = [] /\
    create_and_save_branchwise_groups 4 init = Some (empty_groups 4, table) /\
    create_and_save_uniform_groups 4 init = Some (empty_groups 4, table).
Proof.
  split; [lia|]. split; [constructor|]. split; [reflexivity|].
  apply (allocation_without_records 4 init); [lia|constructor|reflexivity].
Defined.

(** ** More on the loader *)

Lemma dict_set_same {V : Type} (k : string) (v : V) (d : Py.dict V) :
  Py.dict_get k d = Some v -> Py.dict_set k v d = d.
Proof.
  induction d as [|[k' v'] d IH]; simpl; [discriminate|].
  destruct (String.eqb_spec k' k) as [->|Hne].
  - now intros [= ->].
  - intros H. now rewrite IH.
Qed.

Lemma set_all_same (f : string -> list Row) (bs : list string)
  (d : Py.dict (list Row)) :
  (forall b, In b bs -> Py.dict_get b d = Some (f b)) ->
  fold_left (fun d b => Py.dict_set b (f b) d) bs d = d.
Proof.
  induction bs as [|b bs IH]; intros H; simpl; [reflexivity|].
  rewrite dict_set_same by (apply H; now left).
  apply IH. intros b' Hb'. apply H. now right.
Qed.

Lemma known_key (d : Py.dict (list Row)) (b : string) :
  existsb (String.eqb b) (Py.keys d) = true <-> In b (Py.keys d).
Proof.
  rewrite existsb_exists. split.
  - intros (x & Hx & Heq). apply String.eqb_eq in Heq. now subst.
  - intros H. exists b. split; [assumption|apply String.eqb_refl].
Qed.

Lemma set_all_key_order (f : string -> list Row) (bs : list string)
  (d : Py.dict (list Row)) :
  NoDup bs ->
  Py.keys (fold_left (fun d b => Py.dict_set b (f b) d) bs d) =
  Py.keys d ++ filter (fun b => negb (existsb (String.eqb b) (Py.keys d))) bs.
Proof.
  revert d. induction bs as [|b bs IH]; intros d Hnd; simpl.
  - now rewrite app_nil_r.
  - inversion Hnd as [|? ? Hb Hnd']; subst. rewrite IH by assumption.
    destruct (existsb (String.eqb b) (Py.keys d)) eqn:Hknown; simpl.
    + apply known_key in Hknown. now rewrite dict_set_keys_old.
    + assert (Hnew : ~ In b (Py.keys d)).
      { intros Hin. apply known_key in Hin. congruence. }
      rewrite dict_set_fresh by assumption.
      unfold Py.keys at 1 2. rewrite map_app. simpl.
      fold (Py.keys d). rewrite <- app_assoc. simpl. do 2 f_equal.
      apply filter_ext_in. intros b' Hb'.
      rewrite existsb_app. simpl.
      destruct (String.eqb_spec b' b) as [->|_]; [contradiction|].
      now rewrite !orb_false_r.
Qed.

Section LoaderMore.
Context {SV : SortValues}.

(** X6. Loading the same upload again changes nothing: the state after
    the second load is the state after the first, and the flag is the
    same.  ([main] calls [load_data] on every rerun of the page.) *)
Theorem load_data_twice (uploaded : option DataFrame) (self : Analyser) :
  load_data uploaded (fst (load_data uploaded self)) = load_data uploaded self.
Proof.
  unfold load_data. destruct uploaded as [df|]; [|reflexivity].
  destruct (has_required_cols df) eqn:Hcols; simpl; [|reflexivity].
  do 2 f_equal. unfold group_by_branch at 1. apply set_all_same.
  intros b Hb. apply group_by_branch_get. now apply unique_in.
Qed.

(** X7. An accepted load keeps the branch codes the index already had, in
    their places, and appends the codes that are new, in the order of
    their first appearance in the table; in a new analyser the index
    lists the codes of the table in order of first appearance. *)
Theorem index_key_order (df : DataFrame) (self : Analyser) :
  has_required_cols df = true ->
  let codes := unique (map Branch (map with_branch (rows df))) in
  Py.keys (branches (fst (load_data (Some df) self))) =
    Py.keys (branches self) ++
    filter (fun b => negb (existsb (String.eqb b) (Py.keys (branches self)))) codes /\
  Py.keys (branches (fst (load_data (Some df) init))) = codes.
Proof.
  intros Hcols codes. rewrite !load_data_ok by assumption. simpl. split.
  - apply (set_all_key_order (fun b => sort_values (select_branch b (map with_branch (rows df))))).
    apply unique_nodup.
  - rewrite group_by_branch_fresh. unfold Py.keys. rewrite map_map. simpl.
    apply map_id.
Qed.

(** X8. An accepted load merges into the index: a branch code of the
    table maps to the table's students of that branch (whatever it mapped
    to before), and a code that does not occur in the table keeps the
    students it had from earlier loads. *)
Theorem load_data_merges (df : DataFrame) (self : Analyser) (b : string) :
  has_required_cols df = true ->
  let rs := map with_branch (rows df) in
  Py.dict_get b (branches (fst (load_data (Some df) self))) =
    if existsb (String.eqb b) (map Branch rs)
    then Some (sort_values (select_branch b rs))
    else Py.dict_get b (branches self).
Proof.
  intros Hcols rs. rewrite load_data_ok by assumption. simpl. fold rs.
  destruct (existsb (String.eqb b) (map Branch rs)) eqn:Hin.
  - apply group_by_branch_get. apply existsb_exists in Hin.
    destruct Hin as (x & Hx & Heq). apply String.eqb_eq in Heq. now subst.
  - apply group_by_branch_stale. intros Hb.
    assert (existsb (String.eqb b) (map Branch rs) = true); [|congruence].
    apply existsb_exists. exists b. split; [assumption|apply String.eqb_refl].
Qed.
End LoaderMore.

Lemma load_data_twice_witness :
  load_data (SV := stable_sort) (Some ai_cb_frame) (loaded ai_cb_frame) =
  load_data (SV := stable_sort) (Some ai_cb_frame) init.
Proof. exact (load_data_twice (SV := stable_sort) (Some ai_cb_frame) init). Defined.

Lemma index_key_order_witness :
  has_required_cols tie_frame = true /\
  Py.keys (branches (fst (load_data (SV := stable_sort) (Some tie_frame)
                            (loaded ai_cb_frame)))) = ["AI"; "CB"] /\
  Py.keys (branches (loaded tie_frame)) = ["CB"; "AI"].
Proof.
  split; [reflexivity|].
  destruct (index_key_order (SV := stable_sort) tie_frame (loaded ai_cb_frame) eq_refl)
    as [H1 _].
  destruct (index_key_order (SV := stable_sort) tie_frame init eq_refl) as [_ H2].
  split; [rewrite H1|unfold loaded; rewrite H2]; reflexivity.
Defined.

Lemma load_data_merges_witness :
  has_required_cols second_frame = true /\
  Py.dict_get "CB" (branches (reloaded ai_cb_frame second_frame)) =
    Py.dict_get "CB" (branches (loaded ai_cb_frame)).
Proof.
  split; [reflexivity|].
  exact (load_data_merges (SV := stable_sort) second_frame (loaded ai_cb_frame) "CB" eq_refl).
Defined.

(** ** Branch codes *)

Lemma substring_length (n m : nat) (s : string) :
  String.length (String.substring n m s) = Nat.min m (String.length s - n).
Proof.
  revert n m. induction s as [|c s IH]; intros n m.
  - destruct n, m; reflexivity.
  - destruct n as [|n].
    + destruct m as [|m]; [reflexivity|]. simpl. f_equal.
      rewrite IH. now rewrite Nat.sub_0_r.
    + simpl. destruct m; apply IH.
Qed.

Lemma string_length_zero (s : string) : String.length s = 0 -> s = "".
Proof. destruct s; simpl; [reflexivity|discriminate]. Qed.

Lemma with_branch_code (r : Row) : Branch (with_branch r) = slice_4_6 (Roll r).
Proof.
  unfold Branch, cell, with_branch. now rewrite dict_get_set, String.eqb_refl.
Qed.

Lemma with_branch_keeps (r : Row) :
  Roll (with_branch r) = Roll r /\ Name (with_branch r) = Name r /\
  Email (with_branch r) = Email r.
Proof.
  unfold Roll, Name, Email, cell, with_branch.
  rewrite !dict_get_set. simpl. auto.
Qed.

(** X9. After an accepted load every row of the table is found in the
    index under characters 5 and 6 of its roll number, with roll, name
    and email unchanged.  The code has as many characters as the roll
    number has beyond the fourth, at most two: a roll number shorter
    than five characters is not rejected, it is filed under the empty
    code. *)
Theorem rows_filed_by_roll {SV : SortValues} (df : DataFrame) (self : Analyser)
  (r : Row) :
  has_required_cols df = true -> In r (rows df) ->
  let code := String.substring 4 2 (Roll r) in
  In (with_branch r) (students_of (fst (load_data (Some df) self)) code) /\
  String.length code = Nat.min 2 (String.length (Roll r) - 4) /\
  (String.length (Roll r) <= 4 -> code = "") /\
  Roll (with_branch r) = Roll r /\ Name (with_branch r) = Name r /\
  Email (with_branch r) = Email r.
Proof.
  intros Hcols Hr code.
  assert (Hlen : String.length code = Nat.min 2 (String.length (Roll r) - 4))
    by apply substring_length.
  split; [|split; [exact Hlen|split; [|apply with_branch_keeps]]].
  - rewrite load_data_ok by assumption. unfold students_of. simpl.
    assert (Hin : In (with_branch r) (map with_branch (rows df))) by now apply in_map.
    rewrite group_by_branch_get.
    + eapply Permutation_in; [apply sort_values_perm|].
      apply filter_In. split; [assumption|].
      rewrite with_branch_code. apply String.eqb_refl.
    + apply in_map_iff. exists (with_branch r). split; [apply with_branch_code|assumption].
  - intros Hshort. apply string_length_zero. rewrite Hlen. lia.
Qed.

Lemma rows_filed_by_roll_witness :
  has_required_cols (frame [student "14AI" "kim"]) = true /\
  In (student "14AI" "kim") (rows (frame [student "14AI" "kim"])) /\
  In (with_branch (student "14AI" "kim"))
     (students_of (loaded (frame [student "14AI" "kim"])) "") /\
  String.substring 4 2 (Roll (student "14AI" "kim")) = "".
Proof.
  split; [reflexivity|]. split; [now left|].
  destruct (rows_filed_by_roll (SV := stable_sort) (frame [student "14AI" "kim"]) init
              (student "14AI" "kim") eq_refl (or_introl eq_refl))
    as (Hin & _ & Hshort & _).
  split; [exact Hin|]. apply Hshort. simpl. lia.
Defined.

(** ** What every state of the analyser satisfies *)

Lemma select_branch_nonempty (b : string) (rs : list Row) :
  In b (map Branch rs) -> select_branch b rs <> [].
Proof.
  intros Hb Hnil. apply in_map_iff in Hb. destruct Hb as (r & <- & Hr).
  assert (Hin : In r (select_branch (Branch r) rs)).
  { apply filter_In. split; [assumption|apply String.eqb_refl]. }
  rewrite Hnil in Hin. destruct Hin.
Qed.

Lemma index_wf_nonempty {SV : SortValues} (self : Analyser) :
  reachable self -> Forall (fun kv => snd kv <> []) (branches self).
Proof.
  induction 1 as [|uploaded self _ IH]; [constructor|].
  unfold load_data. destruct uploaded as [df|]; [|assumption].
  destruct (has_required_cols df); simpl; [|assumption].
  apply set_all_Forall; [assumption|].
  intros b Hb. simpl. apply (proj1 (unique_in _ _)) in Hb.
  intros Hnil. apply (select_branch_nonempty b _ Hb).
  apply Permutation_nil. rewrite <- Hnil. symmetry. apply sort_values_perm.
Qed.

(** X10. In every state the analyser can reach (created, then any
    uploads, accepted or rejected) the index has no branch code twice,
    and under every code a non-empty list of students, all of that
    branch, in ascending order of name. *)
Theorem index_invariant {SV : SortValues} (self : Analyser) :
  reachable self ->
  NoDup (Py.keys (branches self)) /\
  Forall (fun kv => snd kv <> [] /\
                    StronglySorted name_le (snd kv) /\
                    Forall (fun r => Branch r = fst kv) (snd kv))
    (branches self).
Proof.
  induction 1 as [|uploaded self _ [IHnd IHall]]; [split; constructor|].
  unfold load_data. destruct uploaded as [df|]; [|now split].
  destruct (has_required_cols df); simpl; [|now split].
  split; [now apply set_all_nodup|].
  apply set_all_Forall; [assumption|].
  intros b Hb. simpl. apply (proj1 (unique_in _ _)) in Hb. repeat split.
  - intros Hnil. apply (select_branch_nonempty b _ Hb).
    apply Permutation_nil. rewrite <- Hnil. symmetry. apply sort_values_perm.
  - apply sort_values_sorted.
  - apply sorted_branch_Forall.
Qed.

Lemma index_invariant_witness :
  reachable (SV := stable_sort) (reloaded ai_cb_frame second_frame) /\
  NoDup (Py.keys (branches (reloaded ai_cb_frame second_frame))).
Proof.
  assert (H : reachable (SV := stable_sort) (reloaded ai_cb_frame second_frame)).
  { apply reach_load. apply reach_load. apply reach_init. }
  split; [exact H|]. exact (proj1 (index_invariant _ H)).
Defined.

(** ** More on the statistics *)

Lemma branch_count_app (b : string) (l1 l2 : list Row) :
  branch_count b (l1 ++ l2) = branch_count b l1 + branch_count b l2.
Proof. unfold branch_count, select_branch. now rewrite filter_app, length_app. Qed.

Lemma branch_count_perm (b : string) (l1 l2 : list Row) :
  Permutation l1 l2 -> branch_count b l1 = branch_count b l2.
Proof.
  unfold branch_count, select_branch.
  induction 1 as [|x l l' _ IH|x y l|l l' l'' _ IH1 _ IH2]; simpl.
  - reflexivity.
  - destruct (String.eqb (Branch x) b); simpl; now rewrite IH.
  - destruct (String.eqb (Branch x) b), (String.eqb (Branch y) b); reflexivity.
  - now rewrite IH1.
Qed.

Lemma branch_count_occupied (b : string) (l : list (list Row)) (s : nat) :
  list_sum (map (fun ig : nat * list Row => branch_count b (snd ig))
              (filter (fun ig => nonempty (snd ig)) (combine (seq s (List.length l)) l))) =
  branch_count b (concat l).
Proof.
  revert s. induction l as [|g l IH]; intros s; simpl; [reflexivity|].
  rewrite branch_count_app, <- (IH (S s)).
  destruct g; simpl; reflexivity.
Qed.

Lemma branch_count_index (self : Analyser) (b : string) :
  index_wf (branches self) ->
  branch_count b (all_records self) = List.length (students_of self b).
Proof.
  intros Hwf. unfold students_of.
  destruct (Py.dict_get b (branches self)) as [students|] eqn:Hget.
  - rewrite <- (branch_count_perm b _ _ (visit_order_perm self (proj1 Hwf))).
    destruct (visit_order_block self b students Hwf Hget) as (pre & post & -> & Hpre & Hpost).
    rewrite !branch_count_app. unfold branch_count.
    rewrite (select_branch_none b pre), (select_branch_none b post) by assumption.
    rewrite select_branch_all; [simpl; lia|].
    pose proof (students_of_Forall self b Hwf) as H.
    unfold students_of in H. now rewrite Hget in H.
  - unfold branch_count. rewrite select_branch_none; [reflexivity|].
    apply Forall_forall. intros r Hr Heq.
    apply all_records_branch in Hr; [|assumption].
    rewrite Heq in Hr.
    destruct (dict_get_in _ _ Hr) as [v Hv]. congruence.
Qed.

Lemma column_total (self : Analyser) (groups : Groups) (j : nat) :
  index_wf (branches self) ->
  Permutation (concat groups) (all_records self) ->
  let names := Py.sorted String.leb (Py.keys (branches self)) in
  j < List.length names ->
  list_sum (map (fun row => nth j (row_counts row) 0)
              (stats_data (save_statistics groups self))) =
  List.length (students_of self (nth j names "")).
Proof.
  intros Hwf Hperm names Hj.
  destruct (save_statistics_ok self groups Hwf Hperm) as (_ & _ & _ & Hrows & _).
  fold names in Hrows. rewrite Hrows, map_map. simpl.
  rewrite <- (branch_count_index self _ Hwf), <- (branch_count_perm _ _ _ Hperm).
  unfold occupied, Py.enumerate.
  rewrite <- (branch_count_occupied (nth j names "") groups 0).
  f_equal. apply map_ext. intros [i g]. simpl.
  rewrite (nth_indep _ 0 (branch_count "" g)) by now rewrite length_map.
  apply (map_nth (fun b => branch_count b g)).
Qed.

(** X11. In the statistics of either allocator the column of a branch
    adds up, over the rows, to the number of students the index holds
    for that branch. *)
Theorem statistics_column_totals (n : nat) (self : Analyser) :
  1 <= n -> index_wf (branches self) ->
  let names := Py.sorted String.leb (Py.keys (branches self)) in
  exists gb tb gu tu,
    create_and_save_branchwise_groups n self = Some (gb, tb) /\
    create_and_save_uniform_groups n self = Some (gu, tu) /\
    forall j, j < List.length names ->
      list_sum (map (fun row => nth j (row_counts row) 0) (stats_data tb)) =
        List.length (students_of self (nth j names "")) /\
      list_sum (map (fun row => nth j (row_counts row) 0) (stats_data tu)) =
        List.length (students_of self (nth j names "")).
Proof.
  intros Hn Hwf names.
  destruct (allocators_conserve_index n self Hn (proj1 Hwf))
    as (gb & gu & Hb & Hu & _ & _ & Hpb & Hpu).
  exists gb, (save_statistics gb self), gu, (save_statistics gu self).
  unfold create_and_save_branchwise_groups, create_and_save_uniform_groups.
  rewrite Hb, Hu. split; [reflexivity|]. split; [reflexivity|].
  intros j Hj. split; now apply column_total.
Qed.

Lemma statistics_column_totals_witness :
  1 <= 3 /\ index_wf (branches (loaded ai_cb_frame)) /\
  exists gb tb gu tu,
    create_and_save_branchwise_groups 3 (loaded ai_cb_frame) = Some (gb, tb) /\
    create_and_save_uniform_groups 3 (loaded ai_cb_frame) = Some (gu, tu) /\
    forall j, j < 2 ->
      list_sum (map (fun row => nth j (row_counts row) 0) (stats_data tb)) =
        List.length (students_of (loaded ai_cb_frame) (nth j ["AI"; "CB"] "")) /\
      list_sum (map (fun row => nth j (row_counts row) 0) (stats_data tu)) =
        List.length (students_of (loaded ai_cb_frame) (nth j ["AI"; "CB"] "")).
Proof.
  split; [lia|]. split; [apply loaded_wf|].
  exact (statistics_column_totals 3 (loaded ai_cb_frame) ltac:(lia)
           (loaded_wf ai_cb_frame)).
Defined.

(** *** Statistics of buckets that did not come from the index *)

Lemma known_counts_sum (names : list string) (g : list Row) :
  NoDup names ->
  list_sum (map (fun b => branch_count b g) names) =
  List.length (filter (fun r => existsb (String.eqb (Branch r)) names) g).
Proof.
  intros Hnd.
  set (known := fun r => existsb (String.eqb (Branch r)) names).
  rewrite <- (branch_counts_sum names (filter known g) Hnd).
  - f_equal. apply map_ext_in. intros b Hb.
    unfold branch_count, select_branch.
    induction g as [|r g IH]; simpl; [reflexivity|].
    destruct (String.eqb_spec (Branch r) b) as [Heq|Hne].
    + assert (Hk : known r = true).
      { unfold known. apply existsb_exists.
        exists b. split; [assumption|]. now apply String.eqb_eq. }
      rewrite Hk. simpl. rewrite <- Heq, String.eqb_refl. simpl.
      f_equal. rewrite Heq. exact IH.
    + destruct (known r); simpl; [|exact IH].
      destruct (String.eqb_spec (Branch r) b); [contradiction|exact IH].
  - apply Forall_forall. intros r Hr. apply filter_In in Hr.
    destruct Hr as [_ Hr]. unfold known in Hr. apply existsb_exists in Hr.
    destruct Hr as (b & Hb & Heq). apply String.eqb_eq in Heq. now subst.
Qed.

Lemma existsb_perm {A : Type} (p : A -> bool) (l1 l2 : list A) :
  Permutation l1 l2 -> existsb p l1 = existsb p l2.
Proof.
  induction 1 as [|x l l' _ IH|x y l|l l' l'' _ IH1 _ IH2]; simpl.
  - reflexivity.
  - now rewrite IH.
  - destruct (p x), (p y); reflexivity.
  - now rewrite IH1.
Qed.

(** X12. [save_statistics] accepts any list of buckets whose records
    have a Branch column (without one the lookup of the column raises).
    The Total of a row is the sum of the row's counts, that is the number
    of records of the bucket whose branch code is a key of the index: it
    is the size of the bucket only when every record's code is known, and
    smaller otherwise. *)
Theorem statistics_total_counts_known (self : Analyser) (groups : Groups) :
  NoDup (Py.keys (branches self)) ->
  Forall (Forall (fun r => has_column "Branch" r = true)) groups ->
  let known := fun r => existsb (String.eqb (Branch r)) (Py.keys (branches self)) in
  map row_total (stats_data (save_statistics groups self)) =
    map (fun ig => List.length (filter known (snd ig))) (occupied groups) /\
  Forall (fun row => list_sum (row_counts row) = row_total row)
    (stats_data (save_statistics groups self)).
Proof.
  intros Hnd _ known.
  set (names := Py.sorted String.leb (Py.keys (branches self))).
  assert (Hnames : NoDup names).
  { eapply Permutation_NoDup; [apply sorted_perm|exact Hnd]. }
  assert (Hrow : forall i g,
            stats_row names i g =
            {| row_label := String.append "G" (Py.str_of_nat (i + 1));
               row_counts := map (fun b => branch_count b g) names;
               row_total := List.length (filter known g) |}).
  { intros i g. unfold stats_row. rewrite stats_fold. simpl. f_equal.
    rewrite known_counts_sum by assumption. f_equal. apply filter_ext.
    intros r. unfold known. apply existsb_perm. symmetry. apply sorted_perm. }
  unfold save_statistics, occupied. cbv zeta. simpl. fold names.
  induction (Py.enumerate groups) as [|[i g] l [IH1 IH2]];
    [split; constructor|].
  destruct g as [|r g]; cbn [flat_map filter map snd nonempty app];
    [split; assumption|].
  rewrite Hrow. cbn [row_total row_counts]. split.
  - f_equal. exact IH1.
  - constructor; [|exact IH2].
    cbn [row_total row_counts]. rewrite known_counts_sum by assumption.
    f_equal. apply filter_ext. intros r'. unfold known.
    apply existsb_perm. symmetry. apply sorted_perm.
Qed.

Lemma statistics_total_counts_known_witness :
  NoDup (Py.keys (branches (loaded tie_frame))) /\
  Forall (Forall (fun r => has_column "Branch" r = true))
    [[in_branch "AI" "1401AI01" "y"; in_branch "EE" "1401EE01" "z"]] /\
  map row_total
    (stats_data (save_statistics [[in_branch "AI" "1401AI01" "y";
                                   in_branch "EE" "1401EE01" "z"]]
                   (loaded tie_frame))) = [1].
Proof.
  assert (Hcols : Forall (Forall (fun r => has_column "Branch" r = true))
                    [[in_branch "AI" "1401AI01" "y"; in_branch "EE" "1401EE01" "z"]])
    by (repeat constructor).
  split; [apply loaded_wf|]. split; [exact Hcols|].
  rewrite (proj1 (statistics_total_counts_known (loaded tie_frame) _
                    (proj1 (loaded_wf tie_frame)) Hcols)).
  reflexivity.
Defined.

(** ** The files written *)

Lemma string_append_length (s t : string) :
  String.length (String.append s t) = String.length s + String.length t.
Proof. induction s as [|c s IH]; simpl; [reflexivity|now rewrite IH]. Qed.

Lemma string_append_inj_l (s x y : string) :
  String.append s x = String.append s y -> x = y.
Proof.
  induction s as [|c s IH]; simpl; [auto|].
  intros [= H]. auto.
Qed.

Lemma string_append_inj_r (t x y : string) :
  String.append x t = String.append y t -> x = y.
Proof.
  revert y. induction x as [|c x IH]; intros [|c' y] H; simpl in H.
  - reflexivity.
  - apply (f_equal String.length) in H. simpl in H.
    rewrite string_append_length in H. lia.
  - apply (f_equal String.length) in H. simpl in H.
    rewrite string_append_length in H. lia.
  - injection H as -> H. f_equal. now apply IH.
Qed.

Lemma branch_file_name_inj (b b' : string) :
  branch_file_name b = branch_file_name b' -> b = b'.
Proof.
  unfold branch_file_name. intros H.
  apply string_append_inj_l, string_append_inj_r in H. exact H.
Qed.

Lemma str_of_nat_inj (i j : nat) : Py.str_of_nat i = Py.str_of_nat j -> i = j.
Proof.
  unfold Py.str_of_nat. intros H.
  apply Unsigned.to_uint_inj.
  apply (f_equal NilEmpty.uint_of_string) in H.
  rewrite !NilEmpty.usu in H. now injection H.
Qed.

Lemma group_file_name_inj (dir : string) (i j : nat) :
  group_file_name dir i = group_file_name dir j -> i = j.
Proof.
  unfold group_file_name. intros H.
  apply string_append_inj_l, string_append_inj_l, string_append_inj_r,
    str_of_nat_inj in H.
  lia.
Qed.

Lemma NoDup_map_inj {A B : Type} (f : A -> B) (l : list A) :
  (forall x y, f x = f y -> x = y) -> NoDup l -> NoDup (map f l).
Proof.
  intros Hinj. induction 1 as [|x l Hx Hl IH]; simpl; constructor; [|assumption].
  intros Hin. apply in_map_iff in Hin. destruct Hin as (y & Heq & Hy).
  apply Hinj in Heq. now subst.
Qed.

(** X13. [save_branch_files] writes one file per branch of the index, in
    index order, named after the branch code; no two of the names
    coincide, so no file overwrites another; the file of a branch holds
    name, roll and email of that branch's students in index order; and
    the files together hold as many lines as the index holds students. *)
Theorem branch_files_partition (self : Analyser) :
  NoDup (Py.keys (branches self)) ->
  map file_name (save_branch_files self) =
    map branch_file_name (Py.keys (branches self)) /\
  NoDup (map file_name (save_branch_files self)) /\
  (forall b students, Py.dict_get b (branches self) = Some students ->
     In {| file_name := branch_file_name b;
           file_columns := ["Name"; "Roll"; "Email"];
           file_lines := map (fun r => [Name r; Roll r; Email r]) students |}
        (save_branch_files self)) /\
  list_sum (map (fun f => List.length (file_lines f)) (save_branch_files self)) =
    total_students self.
Proof.
  intros Hnd.
  assert (Hnames : map file_name (save_branch_files self) =
                   map branch_file_name (Py.keys (branches self))).
  { unfold save_branch_files, Py.keys, Py.items. rewrite !map_map.
    apply map_ext. now intros [b students]. }
  split; [exact Hnames|]. split; [|split].
  - rewrite Hnames. apply NoDup_map_inj; [apply branch_file_name_inj|assumption].
  - intros b students Hget. apply dict_get_some in Hget.
    unfold save_branch_files, Py.items.
    apply in_map_iff. exists (b, students). split; [reflexivity|assumption].
  - unfold save_branch_files, total_students, Py.values, Py.items.
    rewrite !map_map. f_equal. apply map_ext. intros [b students]. simpl.
    apply length_map.
Qed.

Lemma branch_files_partition_witness :
  NoDup (Py.keys (branches (loaded ai_cb_frame))) /\
  map file_name (save_branch_files (loaded ai_cb_frame)) =
    ["branch_files/AI.csv"; "branch_files/CB.csv"] /\
  list_sum (map (fun f => List.length (file_lines f))
              (save_branch_files (loaded ai_cb_frame))) = 8.
Proof.
  split; [apply loaded_wf|].
  destruct (branch_files_partition (loaded ai_cb_frame) (proj1 (loaded_wf ai_cb_frame)))
    as (Hnames & _ & _ & Hlines).
  split; [rewrite Hnames|rewrite Hlines]; reflexivity.
Defined.

Lemma occupied_indices (l : list (list Row)) (s : nat) :
  let idx := map fst (filter (fun ig : nat * list Row => nonempty (snd ig))
                        (combine (seq s (List.length l)) l)) in
  Forall (fun i => s <= i) idx /\ NoDup idx.
Proof.
  revert s. induction l as [|g l IH]; intros s; simpl; [split; constructor|].
  destruct (IH (S s)) as [Hge Hnd].
  assert (Hge' : Forall (fun i => s <= i)
                   (map fst (filter (fun ig : nat * list Row => nonempty (snd ig))
                               (combine (seq (S s) (List.length l)) l)))).
  { eapply Forall_impl; [|exact Hge]. simpl. intros; lia. }
  destruct g; simpl; [now split|]. split.
  - constructor; [lia|assumption].
  - constructor; [|assumption].
    intros Hin. rewrite Forall_forall in Hge. specialize (Hge s Hin). lia.
Qed.

Lemma group_files_names (dir : string) (groups : Groups) :
  map file_name (save_group_files dir groups) =
  map (fun ig => group_file_name dir (fst ig)) (occupied groups).
Proof.
  unfold save_group_files, occupied.
  induction (Py.enumerate groups) as [|[i g] l IH]; [reflexivity|].
  destruct g; cbn [flat_map filter map snd fst nonempty app]; [exact IH|].
  now rewrite IH.
Qed.

Lemma group_files_lines (dir : string) (l : list (list Row)) (s : nat) :
  list_sum (map (fun f => List.length (file_lines f))
              (flat_map
                 (fun '(i, group) =>
                    match group with
                    | [] => []
                    | _ :: _ => [to_csv (group_file_name dir i) group]
                    end)
                 (combine (seq s (List.length l)) l))) =
  List.length (concat l).
Proof.
  revert s. induction l as [|g l IH]; intros s; simpl; [reflexivity|].
  rewrite length_app, <- (IH (S s)).
  destruct g; simpl; [reflexivity|]. now rewrite length_map.
Qed.

(** X14. Each allocator writes one group file per non-empty bucket, in
    bucket order, bucket [i] to G(i+1).csv, and returns these names
    followed by the name of its statistics file.  The returned names are
    pairwise different, there is one more of them than there are
    non-empty buckets, and the group files together hold one line per
    student of the index. *)
Theorem group_files_written (n : nat) (self : Analyser) :
  1 <= n -> NoDup (Py.keys (branches self)) ->
  (exists groups files,
     branchwise_groups n self = Some groups /\
     branchwise_saved_files n self = Some files /\
     files = map (fun ig => group_file_name "branchwise_groups" (fst ig)) (occupied groups)
             ++ ["branchwise_groups/stats_branchwise.csv"] /\
     NoDup files /\
     List.length files = List.length (filter nonempty groups) + 1 /\
     list_sum (map (fun f => List.length (file_lines f))
                 (save_group_files "branchwise_groups" groups)) = total_students self) /\
  (exists groups files,
     uniform_groups n self = Some groups /\
     uniform_saved_files n self = Some files /\
     files = map (fun ig => group_file_name "uniform_groups" (fst ig)) (occupied groups)
             ++ ["uniform_groups/stats_uniform.csv"] /\
     NoDup files /\
     List.length files = List.length (filter nonempty groups) + 1 /\
     list_sum (map (fun f => List.length (file_lines f))
                 (save_group_files "uniform_groups" groups)) = total_students self).
Proof.
  intros Hn Hnd.
  destruct (allocators_conserve_index n self Hn Hnd)
    as (gb & gu & Hb & Hu & _ & _ & Hpb & Hpu).
  assert (Hidx : forall groups : Groups, NoDup (map fst (occupied groups))).
  { intros groups. apply (occupied_indices groups 0). }
  assert (Hcount : forall groups : Groups,
            List.length (occupied groups) = List.length (filter nonempty groups)).
  { intros groups. unfold occupied, Py.enumerate. generalize 0.
    induction groups as [|g groups IH]; intros s; simpl; [reflexivity|].
    destruct g; simpl; now rewrite IH. }
  assert (Hnames : forall dir (groups : Groups),
            NoDup (map (fun ig : nat * list Row => group_file_name dir (fst ig))
                     (occupied groups))).
  { intros dir groups. rewrite <- (map_map fst (group_file_name dir)).
    apply NoDup_map_inj; [apply group_file_name_inj|apply Hidx]. }
  split.
  - exists gb, (map file_name (save_group_files "branchwise_groups" gb)
                ++ ["branchwise_groups/stats_branchwise.csv"]).
    unfold branchwise_saved_files. rewrite Hb, group_files_names.
    repeat split.
    + apply NoDup_app; [apply Hnames|repeat constructor; simpl; tauto|].
      intros f Hf [<-|[]]. apply in_map_iff in Hf.
      destruct Hf as (ig & Heq & _). unfold group_file_name in Heq.
      simpl in Heq. discriminate.
    + rewrite length_app, length_map, Hcount. reflexivity.
    + unfold save_group_files, Py.enumerate. rewrite group_files_lines.
      now rewrite (Permutation_length Hpb), all_records_length.
  - exists gu, (map file_name (save_group_files "uniform_groups" gu)
                ++ ["uniform_groups/stats_uniform.csv"]).
    unfold uniform_saved_files. rewrite Hu, group_files_names.
    repeat split.
    + apply NoDup_app; [apply Hnames|repeat constructor; simpl; tauto|].
      intros f Hf [<-|[]]. apply in_map_iff in Hf.
      destruct Hf as (ig & Heq & _). unfold group_file_name in Heq.
      simpl in Heq. discriminate.
    + rewrite length_app, length_map, Hcount. reflexivity.
    + unfold save_group_files, Py.enumerate. rewrite group_files_lines.
      now rewrite (Permutation_length Hpu), all_records_length.
Qed.

Lemma group_files_written_witness :
  1 <= 5 /\ NoDup (Py.keys (branches (loaded ai_cb_frame))) /\
  uniform_saved_files 5 (loaded ai_cb_frame) =
    Some ["uniform_groups/G1.csv"; "uniform_groups/G2.csv"; "uniform_groups/G3.csv";
          "uniform_groups/G4.csv"; "uniform_groups/stats_uniform.csv"].
Proof.
  split; [lia|]. split; [apply loaded_wf|].
  destruct (group_files_written 5 (loaded ai_cb_frame) ltac:(lia)
              (proj1 (loaded_wf ai_cb_frame)))
    as [_ (groups & files & Hg & Hf & -> & _)].
  rewrite Hf. f_equal.
  assert (Hgroups : uniform_groups 5 (loaded ai_cb_frame) = Some groups) by exact Hg.
  vm_compute in Hgroups. injection Hgroups as <-. reflexivity.
Defined.

(** ** The summary and the upload that fails *)

Lemma shown_counts_sum (self : Analyser) (names : list string) :
  list_sum (map snd (map (fun b => (b, List.length (students_of self b))) names)) =
  List.length (flat_map (students_of self) names).
Proof.
  induction names as [|b names IH]; simpl; [reflexivity|].
  now rewrite length_app, IH.
Qed.

(** X15. After the first accepted upload into a new analyser the summary
    of [main] is consistent: Total Students is the number of rows of the
    table, Total Branches the number of distinct branch codes in it, the
    branches are listed by ascending code, every listed count is at least
    one, and the counts add up to Total Students. *)
Theorem summary_first_upload {SV : SortValues} (df : DataFrame) :
  has_required_cols df = true ->
  exists s,
    summary (fst (load_data (Some df) init)) = Some s /\
    shown_students s = List.length (rows df) /\
    shown_branches s =
      List.length (unique (map Branch (map with_branch (rows df)))) /\
    StronglySorted (fun a b => String.leb a b = true) (map fst (shown_counts s)) /\
    Forall (fun c => 1 <= snd c) (shown_counts s) /\
    list_sum (map snd (shown_counts s)) = shown_students s.
Proof.
  intros Hcols.
  remember (fst (load_data (Some df) init)) as self eqn:Hstate.
  assert (Hreach : reachable self) by (subst self; apply reach_load, reach_init).
  assert (Hwf : index_wf (branches self)) by now apply reachable_wf.
  rewrite load_data_ok in Hstate by assumption. cbn [fst] in Hstate.
  change (rows (add_branch_column df)) with (map with_branch (rows df)) in Hstate.
  change (branches init) with (@nil (string * list Row)) in Hstate.
  assert (Hdf : students_df self = Some (add_branch_column df)) by now rewrite Hstate.
  unfold summary. rewrite Hdf.
  eexists. split; [reflexivity|]. cbn [shown_students shown_branches shown_counts].
  split; [apply length_map|]. split; [|split; [|split]].
  - rewrite Hstate. cbn [branches]. rewrite group_by_branch_fresh. apply length_map.
  - rewrite map_map. simpl. rewrite map_id.
    apply (sorted_sorted String.leb); [apply string_leb_total|apply string_leb_trans].
  - apply Forall_forall. intros c Hc. apply in_map_iff in Hc.
    destruct Hc as (b & <- & Hb). simpl.
    apply sorted_keys_in in Hb. destruct (dict_get_in _ _ Hb) as [students Hget].
    unfold students_of. rewrite Hget.
    assert (Hne : students <> []).
    { apply dict_get_some in Hget.
      pose proof (index_wf_nonempty self Hreach) as Hall.
      rewrite Forall_forall in Hall. exact (Hall _ Hget). }
    destruct students; [congruence|simpl; lia].
  - rewrite shown_counts_sum. fold (visit_order self).
    rewrite (Permutation_length (visit_order_perm self (proj1 Hwf))).
    unfold all_records. rewrite Hstate. cbn [branches].
    rewrite (Permutation_length (fresh_index_records _)). reflexivity.
Qed.

Lemma summary_first_upload_witness :
  has_required_cols ai_cb_frame = true /\
  exists s,
    summary (loaded ai_cb_frame) = Some s /\
    shown_students s = 8 /\ shown_branches s = 2 /\
    list_sum (map snd (shown_counts s)) = 8.
Proof.
  split; [reflexivity|].
  destruct (summary_first_upload (SV := stable_sort) ai_cb_frame eq_refl)
    as (s & Hs & Hn & Hb & _ & _ & Hsum).
  exists s. split; [exact Hs|]. split; [exact Hn|]. split; [exact Hb|].
  rewrite Hsum. exact Hn.
Defined.

(** X16. An upload that fails (the reader raised, or a required column
    is missing) returns False and leaves everything computed from the
    index as it was: the index itself, the branch files, and the groups
    and statistics of both allocators for every group count. *)
Theorem failed_load_keeps_results {SV : SortValues} (uploaded : option DataFrame)
  (self : Analyser) (n : nat) :
  snd (load_data uploaded self) = false ->
  let self' := fst (load_data uploaded self) in
  branches self' = branches self /\
  save_branch_files self' = save_branch_files self /\
  create_and_save_branchwise_groups n self' =
    create_and_save_branchwise_groups n self /\
  create_and_save_uniform_groups n self' =
    create_and_save_uniform_groups n self.
Proof.
  unfold load_data. destruct uploaded as [df|]; [|repeat split].
  destruct (has_required_cols df); simpl; [discriminate|].
  intros _. repeat split.
Qed.

Lemma failed_load_keeps_results_witness :
  snd (load_data (SV := stable_sort) (Some no_email_frame) (loaded ai_cb_frame)) = false /\
  create_and_save_uniform_groups 3
    (fst (load_data (SV := stable_sort) (Some no_email_frame) (loaded ai_cb_frame))) =
  create_and_save_uniform_groups 3 (loaded ai_cb_frame).
Proof.
  split; [reflexivity|].
  exact (proj2 (proj2 (proj2
    (failed_load_keeps_results (SV := stable_sort) (Some no_email_frame)
       (loaded ai_cb_frame) 3 eq_refl)))).
Defined.

(** ** Conservation over the index *)

(** X18. In every state the analyser can reach and for every group count
    of at least 1, both allocators return exactly that many buckets, and
    the buckets together hold exactly the records of the index, each
    once: whatever the index holds (the students of earlier uploads
    included) is dealt out, nothing else. *)
Theorem allocation_conserves_index {SV : SortValues} (n : nat) (self : Analyser) :
  1 <= n -> reachable self ->
  exists gb tb gu tu,
    create_and_save_branchwise_groups n self = Some (gb, tb) /\
    create_and_save_uniform_groups n self = Some (gu, tu) /\
    List.length gb = n /\ List.length gu = n /\
    Permutation (concat gb) (all_records self) /\
    Permutation (concat gu) (all_records self).
Proof.
  intros Hn Hreach.
  destruct (allocators_conserve_index n self Hn (proj1 (reachable_wf self Hreach)))
    as (gb & gu & Hb & Hu & Hlb & Hlu & Hpb & Hpu).
  exists gb, (save_statistics gb self), gu, (save_statistics gu self).
  unfold create_and_save_branchwise_groups, create_and_save_uniform_groups.
  rewrite Hb, Hu. repeat split; assumption.
Qed.

Lemma allocation_conserves_index_witness :
  1 <= 2 /\
  reachable (SV := stable_sort) (reloaded ai_cb_frame second_frame) /\
  exists gb tb gu tu,
    create_and_save_branchwise_groups 2 (reloaded ai_cb_frame second_frame) =
      Some (gb, tb) /\
    create_and_save_uniform_groups 2 (reloaded ai_cb_frame second_frame) =
      Some (gu, tu) /\
    Permutation (concat gb) (all_records (reloaded ai_cb_frame second_frame)) /\
    Permutation (concat gu) (all_records (reloaded ai_cb_frame second_frame)).
Proof.
  assert (H : reachable (SV := stable_sort) (reloaded ai_cb_frame second_frame)).
  { apply reach_load. apply reach_load. apply reach_init. }
  split; [lia|]. split; [exact H|].
  destruct (allocation_conserves_index (SV := stable_sort) 2 _ ltac:(lia) H)
    as (gb & tb & gu & tu & Hb & Hu & _ & _ & Hpb & Hpu).
  exists gb, tb, gu, tu. repeat split; assumption.
Defined.
